(** * The blog pipeline of the site: schema, static paths, layout, index

    A shallow embedding of
    - [src/content.config.ts]      (the [blog] collection and its schema),
    - [src/pages/blog/[id].astro]  ([getStaticPaths] and the post page),
    - [src/layouts/BlogPostLayout.astro] (the head and body of a post), and
    - [src/pages/blog/index.astro] (the listing of the posts),
    together with the few JavaScript and zod operations these files call. *)

From Stdlib Require Import ZArith List String Ascii Sorted Permutation Lia.
From stdpp Require Import base option list strings gmap sorting.

Set Warnings "-register-all".

Local Open Scope string_scope.
Local Open Scope Z_scope.
Local Open Scope list_scope.

(** ** JavaScript values and the built-ins the pages call *)

Module JS.

(** A [Date] is its time value, the milliseconds since the epoch. *)
Definition Date : Type := Z.

(** What the front-matter parser can hand to the schema. *)
Inductive Value : Type :=
| VUndefined
| VNull
| VBool (b : bool)
| VNumber (n : Z)
| VString (s : string)
| VDate (t : Date)
| VArray (items : list Value).

(** Days between 1970-01-01 and a civil date, and [Date.UTC(y, m - 1, d)]:
    the time value of a front-matter date such as [2025-06-26]. *)
Definition daysFromCivil (y m d : Z) : Z :=
  let y' := if m <=? 2 then y - 1 else y in
  let era := y' / 400 in
  let yoe := y' - era * 400 in
  let mp := if m <=? 2 then m + 9 else m - 3 in
  let doy := (153 * mp + 2) / 5 + d - 1 in
  let doe := yoe * 365 + yoe / 4 - yoe / 100 + doy in
  era * 146097 + doe - 719468.

Definition utc (y m d : Z) : Date := daysFromCivil y m d * 86400000.

(** [s.split(sep)] for a separator of one character: never empty, and
    [[""]] for the empty string. *)
Fixpoint split (sep : ascii) (s : string) : list string :=
  match s with
  | EmptyString => [EmptyString]
  | String c rest =>
      if Ascii.eqb c sep then EmptyString :: split sep rest
      else match split sep rest with
           | [] => [String c EmptyString]
           | seg :: segs => String c seg :: segs
           end
  end.

(** The value [arr.pop()] returns: the last element, [undefined] on []. *)
Definition pop {A : Type} (arr : list A) : option A := last arr.

(** [x || d] where [x] is a string or [undefined]: [undefined] and the
    empty string are falsy. *)
Definition or_string (x : option string) (d : string) : string :=
  match x with
  | None => d
  | Some EmptyString => d
  | Some s => s
  end.

(** [!!x] where [x] is a [Date] or [undefined]: every object is truthy. *)
Definition truthy_date (x : option Date) : bool :=
  match x with
  | Some _ => true
  | None => false
  end.

(** [(x || 0).valueOf()] where [x] is a [Date] or [undefined]. *)
Definition or_zero_valueOf (x : option Date) : Z :=
  match x with
  | Some t => t
  | None => 0
  end.

(** [arr.sort(compare)]: the sort is stable, and [compare a b > 0] is what
    moves [a] behind [b]. Written as the insertion of each element into
    the sorted rest, which keeps equal elements in their order. *)
Section Sort.
Context {A : Type} (compare : A -> A -> Z).

Fixpoint insert (a : A) (sorted : list A) : list A :=
  match sorted with
  | [] => [a]
  | b :: rest =>
      if 0 <? compare a b then b :: insert a rest
      else a :: b :: rest
  end.

Fixpoint sort (arr : list A) : list A :=
  match arr with
  | [] => []
  | a :: rest => insert a (sort rest)
  end.
End Sort.

(** The outcome of an awaited promise. *)
Inductive Settled (A : Type) : Type :=
| Fulfilled (value : A)
| Rejected (reason : string).
Arguments Fulfilled {A} value.
Arguments Rejected {A} reason.

(** [const x = await p; k x] *)
Definition await {A B : Type} (p : Settled A) (k : A -> Settled B)
  : Settled B :=
  match p with
  | Fulfilled x => k x
  | Rejected reason => Rejected reason
  end.

(** [await Promise.all(ps)]: the values in the order of [ps], or a
    rejection as soon as one of them rejects. *)
Fixpoint Promise_all {A : Type} (ps : list (Settled A))
  : Settled (list A) :=
  match ps with
  | [] => Fulfilled []
  | p :: rest =>
      await p (fun x =>
      await (Promise_all rest) (fun xs =>
      Fulfilled (x :: xs)))
  end.

End JS.

(** ** The part of zod the schema uses *)

Module Zod.

Inductive ParsedType : Type :=
| TUndefined | TNull | TBoolean | TNumber | TString | TDate | TArray.

Definition getParsedType (v : JS.Value) : ParsedType :=
  match v with
  | JS.VUndefined => TUndefined
  | JS.VNull => TNull
  | JS.VBool _ => TBoolean
  | JS.VNumber _ => TNumber
  | JS.VString _ => TString
  | JS.VDate _ => TDate
  | JS.VArray _ => TArray
  end.

Inductive PathSeg : Type :=
| Key (name : string)
| Index (i : nat).

(** An [invalid_type] issue: where, what was expected, what was there. *)
Record Issue : Type := mkIssue {
  path : list PathSeg;
  expected : ParsedType;
  received : ParsedType
}.

(** The result of [safeParse]. *)
Inductive SafeParse (A : Type) : Type :=
| Success (data : A)
| Failure (issues : list Issue).
Arguments Success {A} data.
Arguments Failure {A} issues.

Definition issuesOf {A : Type} (r : SafeParse A) : list Issue :=
  match r with
  | Success _ => []
  | Failure issues => issues
  end.

(** A schema parses the value found at a path. *)
Definition Schema (A : Type) : Type := list PathSeg -> JS.Value -> SafeParse A.

(** [z.string()] *)
Definition string_ : Schema string := fun p v =>
  match v with
  | JS.VString s => Success s
  | _ => Failure [mkIssue p TString (getParsedType v)]
  end.

(** [z.date()] *)
Definition date_ : Schema JS.Date := fun p v =>
  match v with
  | JS.VDate t => Success t
  | _ => Failure [mkIssue p TDate (getParsedType v)]
  end.

(** [inner.optional()]: [undefined] is accepted as it is. *)
Definition optional {A : Type} (inner : Schema A) : Schema (option A) :=
  fun p v =>
    match v with
    | JS.VUndefined => Success None
    | _ => match inner p v with
           | Success a => Success (Some a)
           | Failure issues => Failure issues
           end
    end.

(** The elements of an array, each parsed at its index; the issues of
    all the elements are collected. *)
Fixpoint elements {A : Type} (inner : Schema A) (p : list PathSeg)
    (i : nat) (items : list JS.Value) : SafeParse (list A) :=
  match items with
  | [] => Success []
  | v :: rest =>
      match inner (p ++ [Index i]) v, elements inner p (S i) rest with
      | Success a, Success l => Success (a :: l)
      | r, rs => Failure (issuesOf r ++ issuesOf rs)
      end
  end.

(** [z.array(inner)] *)
Definition array {A : Type} (inner : Schema A) : Schema (list A) :=
  fun p v =>
    match v with
    | JS.VArray items => elements inner p 0%nat items
    | _ => Failure [mkIssue p TArray (getParsedType v)]
    end.

(** One more key of a [z.object]: the keys are parsed in the order of
    the shape and their issues are collected. *)
Definition andKey {A B : Type} (r : SafeParse (A -> B)) (ra : SafeParse A)
  : SafeParse B :=
  match r, ra with
  | Success f, Success a => Success (f a)
  | _, _ => Failure (issuesOf r ++ issuesOf ra)
  end.

(** The value of a key of the parsed object: [undefined] when absent. *)
Definition key {A : Type} (raw : gmap string JS.Value) (name : string)
    (s : Schema A) : SafeParse A :=
  s [Key name] (default JS.VUndefined (raw !! name)).

End Zod.

(** ** [src/content.config.ts] *)

Module ContentConfig.

(** The data of an entry of the [blog] collection, as the schema types it. *)
Record PostData : Type := mkPostData {
  title : string;
  published : option JS.Date;
  description : string;
  author : string;
  tags : list string;
  ogImage : option string
}.

(** [schema: z.object({ title, published, description, author, tags,
    ogImage })] applied to the front matter of a file. *)
Definition schema (raw : gmap string JS.Value) : Zod.SafeParse PostData :=
  Zod.andKey (Zod.andKey (Zod.andKey (Zod.andKey (Zod.andKey (Zod.andKey
    (Zod.Success mkPostData)
    (Zod.key raw "title" Zod.string_))
    (Zod.key raw "published" (Zod.optional Zod.date_)))
    (Zod.key raw "description" Zod.string_))
    (Zod.key raw "author" Zod.string_))
    (Zod.key raw "tags" (Zod.array Zod.string_)))
    (Zod.key raw "ogImage" (Zod.optional Zod.string_)).

End ContentConfig.

(** An entry of the collection, as [getCollection("blog")] returns it. *)
Record CollectionEntry : Type := mkEntry {
  id : string;
  data : ContentConfig.PostData;
  body : string
}.

(** ** [src/layouts/BlogPostLayout.astro] *)

Module BlogPostLayout.

(** The props the layout reads. An attribute whose expression is
    [undefined] is left out of the tag, so a prop that can be [undefined]
    when the page is built is an [option]. *)
Record Props : Type := mkProps {
  id : string;
  title : string;
  author : option string;
  description : option string;
  tags : option (list string);
  published : option JS.Date;
  ogImage : option string
}.

Inductive HeadTag : Type :=
| MetaCharset (charset : string)
| MetaName (name : string) (content : option string)
| MetaProperty (property : string) (content : option string)
| Link (rel href : string) (type : option string)
| Title (text : string).

Inductive BodyNode (Content : Type) : Type :=
| Header
| Divider
| Footer
| Container (children : list (BodyNode Content))
| H1 (text : string)
| Paragraph (children : list (BodyNode Content))
| TimeElem (text : string)
| Slot (content : Content).
Arguments Header {Content}.
Arguments Divider {Content}.
Arguments Footer {Content}.
Arguments Container {Content} children.
Arguments H1 {Content} text.
Arguments Paragraph {Content} children.
Arguments TimeElem {Content} text.
Arguments Slot {Content} content.

Record Document (Content : Type) : Type := mkDocument {
  lang : string;
  head : list HeadTag;
  bodyClass : string;
  bodyNodes : list (BodyNode Content)
}.
Arguments mkDocument {Content} lang head bodyClass bodyNodes.
Arguments lang {Content} d.
Arguments head {Content} d.
Arguments bodyClass {Content} d.
Arguments bodyNodes {Content} d.

Section Layout.
Context {Content : Type}.
(** [Astro.generator], and [d.toLocaleDateString()] of the build host. *)
Variable generator : string.
Variable toLocaleDateString : JS.Date -> string.

(** [new Date(published).toLocaleDateString()] *)
Definition displayDate (published : option JS.Date) : string :=
  match published with
  | Some t => toLocaleDateString t
  | None => "Invalid Date"
  end.

Definition render (props : Props) (slot : Content) : Document Content :=
  mkDocument "en"
    [ MetaCharset "UTF-8";
      MetaName "viewport" (Some "width=device-width");
      Link "icon" "/pizza.ico" (Some "image/x-icon");
      Link "sitemap" "/sitemap-index.xml" None;
      MetaName "generator" (Some generator);
      MetaName "author" (Some "Nick Cosmo");
      Title (title props);
      MetaProperty "og:title" (Some (title props));
      MetaProperty "og:type" (Some "website");
      MetaProperty "og:url"
        (Some ("https://www.nickcosmo.com/blog/" +:+ id props));
      MetaProperty "og:description" (description props);
      MetaProperty "og:image"
        (Some ("https://www.nickcosmo.com/"
               +:+ JS.or_string (ogImage props) "og-image.png"));
      MetaProperty "og:image:alt" (Some "") ]
    "fadeIn"
    [ Header;
      Divider;
      Container [ H1 (title props);
                  Paragraph [TimeElem (displayDate (published props))];
                  Divider;
                  Slot slot ];
      Footer ].
End Layout.

(** Reading a rendered head: the [content] of the first [<meta>] with
    the given [property] or [name], and the text of [<title>]. *)
Fixpoint metaProperty (property : string) (tags : list HeadTag)
  : option (option string) :=
  match tags with
  | [] => None
  | MetaProperty p c :: rest =>
      if String.eqb p property then Some c else metaProperty property rest
  | _ :: rest => metaProperty property rest
  end.



End BlogPostLayout.

(** ** [src/pages/blog/[id].astro] *)

Module BlogPost.

(** The object [getStaticPaths] builds for a post:
    [{ params: { id }, props: { id, title, published, ogImage, Content } }]. *)
Record PathProps (Content : Type) : Type := mkPathProps {
  props_id : string;
  props_title : string;
  props_published : option JS.Date;
  props_ogImage : option string;
  props_Content : Content
}.
Arguments mkPathProps {Content}.
Arguments props_id {Content} p.
Arguments props_title {Content} p.
Arguments props_published {Content} p.
Arguments props_ogImage {Content} p.
Arguments props_Content {Content} p.

Record StaticPath (Content : Type) : Type := mkStaticPath {
  params_id : string;
  props : PathProps Content
}.
Arguments mkStaticPath {Content}.
Arguments params_id {Content} s.
Arguments props {Content} s.

(** [post.id.split("/").pop() || ""] *)
Definition routedId (entryId : string) : string :=
  JS.or_string (JS.pop (JS.split "/"%char entryId)) "".

Section Page.
Context {Content : Type}.
(** [render(post)] of [astro:content], awaited. *)
Variable render : CollectionEntry -> JS.Settled Content.
Variable generator : string.
Variable toLocaleDateString : JS.Date -> string.

(** [(post) => !!post.data.published] *)
Definition isPublished (post : CollectionEntry) : bool :=
  JS.truthy_date (ContentConfig.published (data post)).

(** The object the callback of [allPosts.map] returns once [render]
    has given [Content]. *)
Definition builtParam (post : CollectionEntry) (content : Content)
  : StaticPath Content :=
  mkStaticPath (routedId (id post))
    (mkPathProps (id post)
       (ContentConfig.title (data post))
       (ContentConfig.published (data post))
       (ContentConfig.ogImage (data post))
       content).

(** The callback of [allPosts.map]. *)
Definition buildParam (post : CollectionEntry)
  : JS.Settled (StaticPath Content) :=
  JS.await (render post) (fun content =>
  JS.Fulfilled (builtParam post content)).

Definition getStaticPaths (blog : list CollectionEntry)
  : JS.Settled (list (StaticPath Content)) :=
  let allPosts := List.filter isPublished blog in
  JS.Promise_all (map buildParam allPosts).

(** The component: [Astro.props] is the [props] object of the path.
    It has no [author], [description] or [tags] key, so these three
    names of the destructuring are [undefined]. *)
Definition page (astroProps : PathProps Content)
  : BlogPostLayout.Document Content :=
  BlogPostLayout.render generator toLocaleDateString
    (BlogPostLayout.mkProps
       (props_id astroProps)
       (props_title astroProps)
       None
       None
       None
       (props_published astroProps)
       (props_ogImage astroProps))
    (props_Content astroProps).

(** The path of the route [/blog/[id]] for the given params. *)
Definition routePath (p : StaticPath Content) : string :=
  "/blog/" +:+ params_id p.
End Page.

End BlogPost.

(** ** [src/pages/blog/index.astro] *)

Module BlogIndex.

(** [<li class="post"><a href=...>{post.data.title}</a></li>] *)
Record PostLink : Type := mkPostLink {
  href : string;
  text : string
}.

(** The compare function of the sort. *)
Definition byPublishedDesc (a b : CollectionEntry) : Z :=
  JS.or_zero_valueOf (ContentConfig.published (data b))
  - JS.or_zero_valueOf (ContentConfig.published (data a)).

Definition allPosts (blog : list CollectionEntry) : list CollectionEntry :=
  JS.sort byPublishedDesc
    (List.filter
       (fun post => JS.truthy_date (ContentConfig.published (data post)))
       blog).

Definition postLink (post : CollectionEntry) : PostLink :=
  mkPostLink
    ("/blog/" +:+ JS.or_string (JS.pop (JS.split "/"%char (id post))) "")
             (ContentConfig.title (data post)).

(** The items of the [<ul>] of the page. *)
Definition listing (blog : list CollectionEntry) : list PostLink :=
  map postLink (allPosts blog).

End BlogIndex.

(** ** Sample content used to run the definitions *)

Module Sample.

(** A converter that always gives the body back, and one that always
    fails. *)
Definition renderBody (post : CollectionEntry) : JS.Settled string :=
  JS.Fulfilled (body post).

Definition renderFails (post : CollectionEntry) : JS.Settled string :=
  JS.Rejected "cannot convert".

Definition localeDate (t : JS.Date) : string := "1/23/2025".

Definition postT : CollectionEntry :=
  mkEntry "t"
    (ContentConfig.mkPostData "T" (Some (JS.utc 2025 1 23)) "D" "A" ["x"]
       None)
    "hello".

(** [postT] with another description, author and tags. *)
Definition postT' : CollectionEntry :=
  mkEntry "t"
    (ContentConfig.mkPostData "T" (Some (JS.utc 2025 1 23)) "Other" "B"
       ["y"; "z"] None)
    "hello".

Definition draft : CollectionEntry :=
  mkEntry "notes"
    (ContentConfig.mkPostData "Notes" None "Unfinished" "A" [] None)
    "todo".

Definition withCustomOg : CollectionEntry :=
  mkEntry "launch"
    (ContentConfig.mkPostData "Launch" (Some (JS.utc 2025 3 1)) "D" "A" []
       (Some "custom.png"))
    "hello".

(** An entry whose file is in a subdirectory of the content root. *)
Definition nested : CollectionEntry :=
  mkEntry "locking/row-level-locking"
    (ContentConfig.mkPostData "Locking" (Some (JS.utc 2025 6 26)) "D" "A"
       [] None)
    "hello".

Definition jan2024 : CollectionEntry :=
  mkEntry "first"
    (ContentConfig.mkPostData "First" (Some (JS.utc 2024 1 1)) "D" "A" []
       None)
    "one".

Definition jun2025 : CollectionEntry :=
  mkEntry "second"
    (ContentConfig.mkPostData "Second" (Some (JS.utc 2025 6 26)) "D" "A" []
       None)
    "two".

Definition feb2025 : CollectionEntry :=
  mkEntry "third"
    (ContentConfig.mkPostData "Third" (Some (JS.utc 2025 2 4)) "D" "A" []
       None)
    "three".

(** Front matter as the parser hands it to the schema. *)
Definition frontMatter (title description author : string)
    (tags : list string) : gmap string JS.Value :=
  <["title" := JS.VString title]>
  (<["description" := JS.VString description]>
  (<["author" := JS.VString author]>
  (<["tags" := JS.VArray (map JS.VString tags)]> ∅))).

(** [title: ""] *)
Definition emptyTitle : gmap string JS.Value :=
  frontMatter "" "D" "A" ["x"].

(** [published: soon], a text where a date is expected. *)
Definition publishedSoon : gmap string JS.Value :=
  <["published" := JS.VString "soon"]> (frontMatter "T" "D" "A" ["x"]).

Definition valid : gmap string JS.Value :=
  <["published" := JS.VDate (JS.utc 2025 1 23)]>
  (frontMatter "T" "D" "A" ["x"]).

(** [valid] without its [author] key. *)
Definition noAuthor : gmap string JS.Value := delete "author" valid.

End Sample.

(** ** [astro.config.mjs] *)

Module AstroConfig.

(** [site: "https://nickcosmo.com"], the origin the built pages are
    deployed under. *)
Definition site : string := "https://nickcosmo.com".

End AstroConfig.

(** ** More sample content *)

Module Fixtures.

(** [valid] with a key the schema does not know. *)
Definition withDraftFlag : gmap string JS.Value :=
  <["draft" := JS.VBool true]> Sample.valid.

(** [published:] with nothing after the colon, which the parser reads as
    [null]. *)
Definition publishedNull : gmap string JS.Value :=
  <["published" := JS.VNull]> (Sample.frontMatter "T" "D" "A" ["x"]).

(** [tags: ["x", 3]] *)
Definition numberTag : gmap string JS.Value :=
  <["tags" := JS.VArray [JS.VString "x"; JS.VNumber 3]]> Sample.valid.

(** An entry published on the day of [Sample.jan2024]. *)
Definition alsoJan2024 : CollectionEntry :=
  mkEntry "fourth"
    (ContentConfig.mkPostData "Fourth" (Some (JS.utc 2024 1 1)) "D" "A" []
       None)
    "four".

(** An entry whose [ogImage] is the empty text. *)
Definition emptyOg : CollectionEntry :=
  mkEntry "plain"
    (ContentConfig.mkPostData "Plain" (Some (JS.utc 2025 3 1)) "D" "A" []
       (Some ""))
    "hello".

(** A converter that fails on [Sample.nested] only. *)
Definition renderButNested (post : CollectionEntry) : JS.Settled string :=
  if String.eqb (id post) "locking/row-level-locking"
  then JS.Rejected "cannot convert"
  else JS.Fulfilled (body post).

(** A converter that fails on drafts only. *)
Definition renderPublished (post : CollectionEntry) : JS.Settled string :=
  match ContentConfig.published (data post) with
  | Some _ => JS.Fulfilled (body post)
  | None => JS.Rejected "draft"
  end.

End Fixtures.

(** * Properties *)

(** ** The JavaScript built-ins *)

Lemma utc_samples :
  JS.utc 1970 1 1 = 0 /\ JS.utc 2024 1 1 = 1704067200000 /\
  JS.utc 2025 6 26 = 1750896000000 /\ JS.utc 2025 2 4 = 1738627200000.
Proof. repeat split; reflexivity. Qed.

Lemma split_not_nil sep s : JS.split sep s <> [].
Proof.
  destruct s as [|c rest]; simpl; [discriminate|].
  destruct (Ascii.eqb c sep); [discriminate|].
  destruct (JS.split sep rest); discriminate.
Qed.

(** Splitting [dir/name] gives the segments of [dir], then those of
    [name]. *)
Lemma split_app_sep sep dir name :
  JS.split sep (dir +:+ String sep name)
  = JS.split sep dir ++ JS.split sep name.
Proof.
  induction dir as [|c dir IH]; simpl.
  - rewrite Ascii.eqb_refl. reflexivity.
  - destruct (Ascii.eqb c sep).
    + rewrite IH. reflexivity.
    + rewrite IH.
      destruct (JS.split sep dir) as [|seg segs] eqn:E.
      * exfalso. exact (split_not_nil _ _ E).
      * reflexivity.
Qed.

(** No segment of a split holds the separator. *)
Lemma split_segment_no_sep sep s seg a b :
  seg ∈ JS.split sep s -> seg <> a +:+ String sep b.
Proof.
  revert seg a. induction s as [|c rest IH]; simpl; intros seg a Hin.
  - apply list_elem_of_singleton in Hin. subst seg.
    destruct a; discriminate.
  - destruct (Ascii.eqb c sep) eqn:Ec.
    + apply elem_of_cons in Hin. destruct Hin as [->|Hin].
      * destruct a; discriminate.
      * apply IH, Hin.
    + destruct (JS.split sep rest) as [|seg0 segs] eqn:E.
      * exfalso. exact (split_not_nil _ _ E).
      * apply elem_of_cons in Hin. destruct Hin as [->|Hin].
        -- destruct a as [|c' a']; simpl; intros Heq.
           ++ injection Heq as Hc _. subst c.
              rewrite Ascii.eqb_refl in Ec. discriminate.
           ++ injection Heq as _ Hs. revert Hs. apply IH. left.
        -- apply IH. right. exact Hin.
Qed.

Lemma or_string_empty_default s : JS.or_string (Some s) "" = s.
Proof. destruct s; reflexivity. Qed.

(** The routed identifier is the last segment of the entry id. *)
Lemma routedId_last entryId :
  JS.pop (JS.split "/" entryId) = Some (BlogPost.routedId entryId).
Proof.
  unfold BlogPost.routedId, JS.pop.
  destruct (last (JS.split "/" entryId)) as [seg|] eqn:E.
  - rewrite or_string_empty_default. reflexivity.
  - apply last_None in E. exfalso. exact (split_not_nil _ _ E).
Qed.

Lemma routedId_segment entryId :
  BlogPost.routedId entryId ∈ JS.split "/" entryId.
Proof.
  pose proof (routedId_last entryId) as H. unfold JS.pop in H.
  apply last_Some in H. destruct H as [l' ->].
  apply elem_of_app. right. left.
Qed.

(** The directories of a nested id do not reach the routed identifier. *)
Lemma routedId_nested dir name :
  BlogPost.routedId (dir +:+ "/" +:+ name) = BlogPost.routedId name.
Proof.
  unfold BlogPost.routedId, JS.pop.
  change (dir +:+ "/" +:+ name) with (dir +:+ String "/" name).
  rewrite split_app_sep.
  destruct (JS.split "/" name) as [|seg segs] eqn:E.
  - exfalso. exact (split_not_nil _ _ E).
  - rewrite last_app. simpl.
    destruct (last (seg :: segs)) eqn:El; [reflexivity|].
    apply last_None in El. discriminate.
Qed.

Lemma routedId_no_slash entryId a b :
  BlogPost.routedId entryId <> a +:+ "/" +:+ b.
Proof. apply (split_segment_no_sep "/" entryId), routedId_segment. Qed.


(** [Promise.all] fulfils exactly when every promise does, with the values
    in the order of the promises. *)
Lemma Promise_all_Fulfilled {A : Type} (ps : list (JS.Settled A)) xs :
  JS.Promise_all ps = JS.Fulfilled xs <-> ps = map JS.Fulfilled xs.
Proof.
  revert xs. induction ps as [|p ps IH]; intros xs; simpl.
  - split.
    + intros H. injection H as <-. reflexivity.
    + destruct xs; [reflexivity|discriminate].
  - destruct p as [x|reason]; simpl.
    + destruct (JS.Promise_all ps) as [ys|reason] eqn:E; simpl.
      * split.
        -- intros H. injection H as <-. simpl. f_equal. apply IH. reflexivity.
        -- destruct xs as [|x' xs']; simpl; [discriminate|].
           intros H. injection H as <- Hps.
           apply IH in Hps. injection Hps as <-. reflexivity.
      * split; [discriminate|].
        destruct xs as [|x' xs']; simpl; [discriminate|].
        intros H. injection H as _ Hps. apply IH in Hps. discriminate.
    + split; [discriminate|].
      destruct xs; simpl; discriminate.
Qed.

Lemma Promise_all_app {A : Type} (ps qs : list (JS.Settled A)) :
  JS.Promise_all (ps ++ qs)
  = JS.await (JS.Promise_all ps) (fun xs =>
    JS.await (JS.Promise_all qs) (fun ys => JS.Fulfilled (xs ++ ys))).
Proof.
  induction ps as [|p ps IH]; simpl.
  - destruct (JS.Promise_all qs); reflexivity.
  - destruct p as [x|reason]; simpl; [|reflexivity].
    rewrite IH. destruct (JS.Promise_all ps); simpl; [|reflexivity].
    destruct (JS.Promise_all qs); reflexivity.
Qed.

(** ** The sort *)

Section SortFacts.
Context {A : Type} (compare : A -> A -> Z).

Lemma insert_Permutation a l : JS.insert compare a l ≡ₚ a :: l.
Proof.
  induction l as [|b l IH]; simpl; [reflexivity|].
  destruct (0 <? compare a b); [|reflexivity].
  rewrite IH. apply Permutation_swap.
Qed.

Lemma sort_Permutation l : JS.sort compare l ≡ₚ l.
Proof.
  induction l as [|a l IH]; simpl; [reflexivity|].
  rewrite insert_Permutation, IH. reflexivity.
Qed.

(** When [compare a b] is [key b - key a], the result descends in [key]. *)
Context (key : A -> Z).
Hypothesis compare_key : forall a b, compare a b = key b - key a.

Lemma insert_descending a l :
  StronglySorted (fun x y => key y <= key x) l ->
  StronglySorted (fun x y => key y <= key x) (JS.insert compare a l).
Proof.
  induction l as [|b l IH]; simpl; intros Hs.
  - repeat constructor.
  - apply StronglySorted_inv in Hs. destruct Hs as [Hl Hb].
    destruct (0 <? compare a b) eqn:E.
    + apply Z.ltb_lt in E. rewrite compare_key in E.
      constructor; [apply IH, Hl|].
      rewrite insert_Permutation. constructor; [lia|exact Hb].
    + apply Z.ltb_ge in E. rewrite compare_key in E.
      constructor; [constructor; assumption|].
      constructor; [lia|].
      eapply Forall_impl; [exact Hb|]. simpl. intros x Hx. lia.
Qed.

Lemma sort_descending l :
  StronglySorted (fun x y => key y <= key x) (JS.sort compare l).
Proof.
  induction l as [|a l IH]; simpl; [constructor|].
  apply insert_descending, IH.
Qed.
End SortFacts.

(** ** The schema *)

Lemma andKey_issues {A B : Type} (r : Zod.SafeParse (A -> B)) ra :
  Zod.issuesOf (Zod.andKey r ra) = Zod.issuesOf r ++ Zod.issuesOf ra.
Proof. destruct r, ra; reflexivity. Qed.

Lemma andKey_Failure_l {A B : Type} (r : Zod.SafeParse (A -> B)) ra :
  (exists issues, r = Zod.Failure issues) ->
  exists issues, Zod.andKey r ra = Zod.Failure issues.
Proof. intros [i ->]. destruct ra; simpl; eauto. Qed.

Lemma andKey_Failure_r {A B : Type} (r : Zod.SafeParse (A -> B)) ra :
  (exists issues, ra = Zod.Failure issues) ->
  exists issues, Zod.andKey r ra = Zod.Failure issues.
Proof. intros [i ->]. destruct r; simpl; eauto. Qed.

(** The issues of the object are those of its keys, in the order of the
    shape. *)
Lemma schema_issues raw :
  Zod.issuesOf (ContentConfig.schema raw)
  = Zod.issuesOf (Zod.key raw "title" Zod.string_)
    ++ Zod.issuesOf (Zod.key raw "published" (Zod.optional Zod.date_))
    ++ Zod.issuesOf (Zod.key raw "description" Zod.string_)
    ++ Zod.issuesOf (Zod.key raw "author" Zod.string_)
    ++ Zod.issuesOf (Zod.key raw "tags" (Zod.array Zod.string_))
    ++ Zod.issuesOf (Zod.key raw "ogImage" (Zod.optional Zod.string_)).
Proof.
  unfold ContentConfig.schema. rewrite !andKey_issues. simpl.
  rewrite <- !app_assoc. reflexivity.
Qed.

Lemma key_string_text raw name s :
  raw !! name = Some (JS.VString s) ->
  Zod.key raw name Zod.string_ = Zod.Success s.
Proof. unfold Zod.key. intros ->. reflexivity. Qed.

Lemma key_string_not_text raw name :
  (forall s, raw !! name <> Some (JS.VString s)) ->
  Zod.key raw name Zod.string_
  = Zod.Failure
      [Zod.mkIssue [Zod.Key name] Zod.TString
         (Zod.getParsedType (default JS.VUndefined (raw !! name)))].
Proof.
  unfold Zod.key. intros H.
  destruct (raw !! name) as [v|]; simpl; [|reflexivity].
  destruct v; try reflexivity. exfalso. exact (H _ eq_refl).
Qed.

Lemma elements_strings p i (l : list string) :
  Zod.elements Zod.string_ p i (map JS.VString l) = Zod.Success l.
Proof.
  revert i. induction l as [|s l IH]; intros i; simpl; [reflexivity|].
  rewrite IH. reflexivity.
Qed.

Lemma key_optional_date raw (t : option JS.Date) :
  raw !! "published" = JS.VDate <$> t ->
  Zod.key raw "published" (Zod.optional Zod.date_) = Zod.Success t.
Proof. unfold Zod.key. intros ->. destruct t; reflexivity. Qed.

Lemma key_optional_string raw name (s : option string) :
  raw !! name = JS.VString <$> s ->
  Zod.key raw name (Zod.optional Zod.string_) = Zod.Success s.
Proof. unfold Zod.key. intros ->. destruct s; reflexivity. Qed.

(** A record whose keys all parse is accepted, with the parsed values. *)
Lemma schema_accepts raw t d a tg (p : option JS.Date) (og : option string) :
  raw !! "title" = Some (JS.VString t) ->
  raw !! "description" = Some (JS.VString d) ->
  raw !! "author" = Some (JS.VString a) ->
  raw !! "tags" = Some (JS.VArray (map JS.VString tg)) ->
  raw !! "published" = JS.VDate <$> p ->
  raw !! "ogImage" = JS.VString <$> og ->
  ContentConfig.schema raw
  = Zod.Success (ContentConfig.mkPostData t p d a tg og).
Proof.
  intros Ht Hd Ha Htg Hp Hog. unfold ContentConfig.schema.
  rewrite (key_string_text _ _ _ Ht), (key_string_text _ _ _ Hd),
    (key_string_text _ _ _ Ha), (key_optional_date _ _ Hp),
    (key_optional_string _ _ _ Hog).
  unfold Zod.key at 1. rewrite Htg. simpl.
  rewrite elements_strings. reflexivity.
Qed.

(** A record one of whose text keys does not hold a text is rejected, and
    the issue names the key. *)
Lemma schema_rejects_not_text raw name :
  name ∈ ["title"; "description"; "author"] ->
  (forall s, raw !! name <> Some (JS.VString s)) ->
  exists issues,
    ContentConfig.schema raw = Zod.Failure issues /\
    Zod.mkIssue [Zod.Key name] Zod.TString
      (Zod.getParsedType (default JS.VUndefined (raw !! name))) ∈ issues.
Proof.
  intros Hname Hraw.
  pose proof (key_string_not_text raw name Hraw) as Hkey.
  assert (exists issues, ContentConfig.schema raw = Zod.Failure issues)
    as [issues Hfail].
  { unfold ContentConfig.schema.
    repeat (apply elem_of_cons in Hname; destruct Hname as [->|Hname]);
      [| | |inversion Hname].
    - do 5 apply andKey_Failure_l. apply andKey_Failure_r. eauto.
    - do 3 apply andKey_Failure_l. apply andKey_Failure_r. eauto.
    - do 2 apply andKey_Failure_l. apply andKey_Failure_r. eauto. }
  exists issues. split; [exact Hfail|].
  pose proof (schema_issues raw) as Hi. rewrite Hfail in Hi. simpl in Hi.
  rewrite Hi.
  repeat (apply elem_of_cons in Hname; destruct Hname as [->|Hname]);
    [| | |inversion Hname]; rewrite Hkey; simpl; set_solver.
Qed.

Lemma schema_rejects_tags_not_array raw :
  (forall items, raw !! "tags" <> Some (JS.VArray items)) ->
  exists issues,
    ContentConfig.schema raw = Zod.Failure issues /\
    Zod.mkIssue [Zod.Key "tags"] Zod.TArray
      (Zod.getParsedType (default JS.VUndefined (raw !! "tags"))) ∈ issues.
Proof.
  intros Hraw.
  assert (Zod.key raw "tags" (Zod.array Zod.string_)
          = Zod.Failure
              [Zod.mkIssue [Zod.Key "tags"] Zod.TArray
                 (Zod.getParsedType (default JS.VUndefined (raw !! "tags")))])
    as Hkey.
  { unfold Zod.key. destruct (raw !! "tags") as [v|]; simpl; [|reflexivity].
    destruct v; try reflexivity. exfalso. exact (Hraw _ eq_refl). }
  assert (exists issues, ContentConfig.schema raw = Zod.Failure issues)
    as [issues Hfail].
  { unfold ContentConfig.schema.
    apply andKey_Failure_l, andKey_Failure_r. eauto. }
  exists issues. split; [exact Hfail|].
  pose proof (schema_issues raw) as Hi. rewrite Hfail in Hi. simpl in Hi.
  rewrite Hi, Hkey. simpl. set_solver.
Qed.

Lemma elements_cons_issues {A : Type} (inner : Zod.Schema A) p i v items :
  Zod.issuesOf (Zod.elements inner p i (v :: items))
  = Zod.issuesOf (inner (p ++ [Zod.Index i]) v)
    ++ Zod.issuesOf (Zod.elements inner p (S i) items).
Proof.
  simpl. destruct (inner (p ++ [Zod.Index i]) v),
    (Zod.elements inner p (S i) items); reflexivity.
Qed.

(** The issues of the elements of [tags] are the elements that are not
    texts, each at its index. *)
Lemma elements_issue p i items x :
  x ∈ Zod.issuesOf (Zod.elements Zod.string_ p i items) <->
  exists j v,
    items !! j = Some v /\ (forall s, v <> JS.VString s) /\
    x = Zod.mkIssue (p ++ [Zod.Index (i + j)]) Zod.TString
          (Zod.getParsedType v).
Proof.
  revert i. induction items as [|v items IH]; intros i.
  - simpl. split; [intros H; inversion H|].
    intros (j & v & Hj & _). rewrite lookup_nil in Hj. discriminate.
  - rewrite elements_cons_issues, elem_of_app, IH. split.
    + intros [Hx|(j & w & Hj & Hw & ->)].
      * exists 0%nat, v. rewrite Nat.add_0_r.
        destruct v; simpl in Hx; try (inversion Hx; fail);
          apply list_elem_of_singleton in Hx; subst x;
          (split; [reflexivity|]); (split; [discriminate|reflexivity]).
      * exists (S j), w. rewrite Nat.add_succ_r. simpl. auto.
    + intros (j & w & Hj & Hw & ->). destruct j as [|j]; simpl in Hj.
      * injection Hj as ->. left. rewrite Nat.add_0_r.
        destruct w; simpl; try apply list_elem_of_singleton; try reflexivity.
        exfalso. exact (Hw _ eq_refl).
      * right. exists j, w. rewrite Nat.add_succ_r. simpl. auto.
Qed.

(** What an issue of a key says: it is at the key or below it, and what it
    found is not what it expected. *)
Lemma key_issue raw name x :
  x ∈ Zod.issuesOf (Zod.key raw name Zod.string_) \/
  x ∈ Zod.issuesOf (Zod.key raw name (Zod.optional Zod.date_)) \/
  x ∈ Zod.issuesOf (Zod.key raw name (Zod.optional Zod.string_)) \/
  x ∈ Zod.issuesOf (Zod.key raw name (Zod.array Zod.string_)) ->
  (exists rest, Zod.path x = Zod.Key name :: rest) /\
  Zod.expected x <> Zod.received x.
Proof.
  unfold Zod.key. intros [H|[H|[H|H]]];
    destruct (default JS.VUndefined (raw !! name)) eqn:E; simpl in H;
    try (inversion H; fail);
    try (apply list_elem_of_singleton in H; subst x; simpl;
         split; [eauto|discriminate]).
  apply elements_issue in H. destruct H as (j & v & _ & Hv & ->). simpl.
  split; [eauto|]. destruct v; simpl; try discriminate.
  exfalso. exact (Hv _ eq_refl).
Qed.

(** C4, as amended. The schema asks the three keys [title], [description]
    and [author] for a text and for nothing more: a record in which one of
    them is absent or holds anything but a text is rejected with an issue
    at that key; a record whose six keys all have their type is accepted
    whatever the three texts are, the empty text included; and a key that
    holds a text, empty or not, never has an issue of its own, whatever
    the rest of the record is. *)
Theorem schema_text_keys_need_text_only (raw : gmap string JS.Value) :
  (forall name,
     name ∈ ["title"; "description"; "author"] ->
     (forall s, raw !! name <> Some (JS.VString s)) ->
     exists issues,
       ContentConfig.schema raw = Zod.Failure issues /\
       Zod.mkIssue [Zod.Key name] Zod.TString
         (Zod.getParsedType (default JS.VUndefined (raw !! name))) ∈ issues)
  /\
  (forall t d a tg p og,
     raw !! "title" = Some (JS.VString t) ->
     raw !! "description" = Some (JS.VString d) ->
     raw !! "author" = Some (JS.VString a) ->
     raw !! "tags" = Some (JS.VArray (map JS.VString tg)) ->
     raw !! "published" = JS.VDate <$> p ->
     raw !! "ogImage" = JS.VString <$> og ->
     ContentConfig.schema raw
     = Zod.Success (ContentConfig.mkPostData t p d a tg og))
  /\
  (forall name s,
     name ∈ ["title"; "description"; "author"] ->
     raw !! name = Some (JS.VString s) ->
     forall x,
       x ∈ Zod.issuesOf (ContentConfig.schema raw) ->
       Zod.path x <> [Zod.Key name]).
Proof.
  split; [|split].
  - intros name. apply schema_rejects_not_text.
  - intros t d a tg p og. apply schema_accepts.
  - intros name s Hname Hraw x Hx Hp.
    pose proof (key_string_text raw name s Hraw) as Htext.
    assert (forall other,
              (exists rest, Zod.path x = Zod.Key other :: rest) ->
              other = name) as Hkey.
    { intros other [rest Hr]. rewrite Hp in Hr. injection Hr as <-.
      reflexivity. }
    assert (forall other,
              other = name ->
              other ∈ ["published"; "tags"; "ogImage"] -> False) as Hnot.
    { intros other -> Ho.
      rewrite !elem_of_cons, elem_of_nil in Hname, Ho.
      destruct Hname as [->|[->|[->|[]]]];
        destruct Ho as [Ho|[Ho|[Ho|[]]]]; discriminate Ho. }
    rewrite schema_issues, !elem_of_app in Hx.
    destruct Hx as [Hx|[Hx|[Hx|[Hx|[Hx|Hx]]]]].
    + rewrite <- (Hkey "title") in Htext
        by (apply (key_issue raw "title" x); auto).
      rewrite Htext in Hx. inversion Hx.
    + apply (Hnot "published"); [|left].
      apply Hkey, (key_issue raw "published" x). auto.
    + rewrite <- (Hkey "description") in Htext
        by (apply (key_issue raw "description" x); auto).
      rewrite Htext in Hx. inversion Hx.
    + rewrite <- (Hkey "author") in Htext
        by (apply (key_issue raw "author" x); auto).
      rewrite Htext in Hx. inversion Hx.
    + apply (Hnot "tags"); [|right; left].
      apply Hkey, (key_issue raw "tags" x). auto 6.
    + apply (Hnot "ogImage"); [|right; right; left].
      apply Hkey, (key_issue raw "ogImage" x). auto.
Qed.

(** C4, the claim as written fails: front matter with [title: ""] is
    accepted. *)
Lemma empty_title_is_accepted :
  Sample.emptyTitle !! "title" = Some (JS.VString "") /\
  ContentConfig.schema Sample.emptyTitle
  = Zod.Success (ContentConfig.mkPostData "" None "D" "A" ["x"] None) /\
  ~ (exists issues,
       ContentConfig.schema Sample.emptyTitle = Zod.Failure issues).
Proof.
  assert (ContentConfig.schema Sample.emptyTitle
          = Zod.Success (ContentConfig.mkPostData "" None "D" "A" ["x"] None))
    as H by (vm_compute; reflexivity).
  split; [vm_compute; reflexivity|]. split; [exact H|].
  intros [issues Hi]. rewrite H in Hi. discriminate.
Qed.

(** C5, as amended. A record whose four required keys hold a text, a
    text, a text and an array of texts, and whose optional keys
    [published] and [ogImage], when present, hold a date and a text, is
    accepted and gives the record of its values; a record from which one
    of the four required keys is missing is rejected with an issue at that
    key. *)
Theorem schema_accepts_typed_rejects_missing (raw : gmap string JS.Value) :
  (forall t d a tg p og,
     raw !! "title" = Some (JS.VString t) ->
     raw !! "description" = Some (JS.VString d) ->
     raw !! "author" = Some (JS.VString a) ->
     raw !! "tags" = Some (JS.VArray (map JS.VString tg)) ->
     raw !! "published" = JS.VDate <$> p ->
     raw !! "ogImage" = JS.VString <$> og ->
     ContentConfig.schema raw
     = Zod.Success (ContentConfig.mkPostData t p d a tg og))
  /\
  (forall name,
     name ∈ ["title"; "description"; "author"; "tags"] ->
     raw !! name = None ->
     exists issues,
       ContentConfig.schema raw = Zod.Failure issues /\
       exists wanted,
         Zod.mkIssue [Zod.Key name] wanted Zod.TUndefined ∈ issues).
Proof.
  split.
  - intros t d a tg p og. apply schema_accepts.
  - intros name Hname Hnone.
    assert (name ∈ ["title"; "description"; "author"] \/ name = "tags")
      as [Htext| ->].
    { rewrite !elem_of_cons, elem_of_nil in Hname.
      rewrite !elem_of_cons, elem_of_nil. tauto. }
    + destruct (schema_rejects_not_text raw name Htext) as (issues & Hf & Hi).
      { rewrite Hnone. discriminate. }
      rewrite Hnone in Hi. exists issues. split; [exact Hf|].
      exists Zod.TString. exact Hi.
    + destruct (schema_rejects_tags_not_array raw) as (issues & Hf & Hi).
      { rewrite Hnone. discriminate. }
      rewrite Hnone in Hi. exists issues. split; [exact Hf|].
      exists Zod.TArray. exact Hi.
Qed.

(** C5, the claim as written fails: the four required keys are present
    and have their types, and [published: soon] still has the record
    rejected. *)
Lemma typed_required_keys_still_rejected :
  Sample.publishedSoon !! "title" = Some (JS.VString "T") /\
  Sample.publishedSoon !! "description" = Some (JS.VString "D") /\
  Sample.publishedSoon !! "author" = Some (JS.VString "A") /\
  Sample.publishedSoon !! "tags" = Some (JS.VArray [JS.VString "x"]) /\
  ContentConfig.schema Sample.publishedSoon
  = Zod.Failure [Zod.mkIssue [Zod.Key "published"] Zod.TDate Zod.TString].
Proof. repeat split; vm_compute; reflexivity. Qed.

(** A text without the separator is its own single segment. *)
Lemma split_no_sep sep s :
  (forall a b, s <> a +:+ String sep b) -> JS.split sep s = [s].
Proof.
  induction s as [|c rest IH]; intros H; simpl; [reflexivity|].
  destruct (Ascii.eqb c sep) eqn:Ec.
  - apply Ascii.eqb_eq in Ec. subst c. exfalso. apply (H "" rest).
    reflexivity.
  - rewrite IH; [reflexivity|].
    intros a b ->. apply (H (String c a) b). reflexivity.
Qed.

Lemma routedId_flat entryId :
  (forall a b, entryId <> a +:+ "/" +:+ b) ->
  BlogPost.routedId entryId = entryId.
Proof.
  intros H. unfold BlogPost.routedId, JS.pop.
  rewrite (split_no_sep "/" entryId H). simpl.
  apply or_string_empty_default.
Qed.

(** A text that splits into itself has no slash. *)
Lemma no_slash_of_split s :
  JS.split "/" s = [s] -> forall a b, s <> a +:+ "/" +:+ b.
Proof.
  intros Hs a b ->.
  change (a +:+ "/" +:+ b) with (a +:+ String "/" b) in Hs at 1.
  rewrite split_app_sep in Hs.
  destruct (JS.split "/" a) as [|x xs] eqn:Ea;
    [exact (split_not_nil _ _ Ea)|].
  destruct (JS.split "/" b) as [|y ys] eqn:Eb;
    [exact (split_not_nil _ _ Eb)|].
  destruct xs; discriminate.
Qed.

(** A text that splits into itself does not hold the separator. *)
Lemma no_sep_of_split sep s :
  JS.split sep s = [s] -> forall a b, s <> a +:+ String sep b.
Proof.
  intros Hs a b ->. rewrite split_app_sep in Hs.
  destruct (JS.split sep a) as [|x xs] eqn:Ea;
    [exact (split_not_nil _ _ Ea)|].
  destruct (JS.split sep b) as [|y ys] eqn:Eb;
    [exact (split_not_nil _ _ Eb)|].
  destruct xs; discriminate.
Qed.

Lemma string_app_assoc (a b c : string) : (a +:+ b) +:+ c = a +:+ b +:+ c.
Proof.
  induction a as [|x a IH]; [reflexivity|].
  change (String x ((a +:+ b) +:+ c) = String x (a +:+ b +:+ c)).
  f_equal. exact IH.
Qed.

(** The last segment of a split, and what is before it in the text. *)
Lemma split_last_segment sep s :
  exists segs seg,
    JS.split sep s = segs ++ [seg] /\
    ((segs = [] /\ s = seg) \/
     (segs <> [] /\ exists p, s = p +:+ String sep seg)).
Proof.
  induction s as [|c rest (segs & seg & Hs & IH)]; simpl.
  - exists [], "". split; [reflexivity|left; split; reflexivity].
  - destruct (Ascii.eqb c sep) eqn:Ec.
    + apply Ascii.eqb_eq in Ec. subst c. exists ("" :: segs), seg.
      rewrite Hs. split; [reflexivity|]. right. split; [discriminate|].
      destruct IH as [[_ ->]|[_ [p ->]]].
      * exists "". reflexivity.
      * exists (String sep p). reflexivity.
    + rewrite Hs. destruct IH as [[-> ->]|[Hne [p ->]]].
      * simpl. exists [], (String c seg).
        split; [reflexivity|left; split; reflexivity].
      * destruct segs as [|seg0 segs']; [contradiction|]. simpl.
        exists (String c seg0 :: segs'), seg. split; [reflexivity|].
        right. split; [discriminate|]. exists (String c p). reflexivity.
Qed.

(** An entry id is its routed identifier, or ends in a slash and its
    routed identifier. *)
Lemma routedId_suffix entryId :
  entryId = BlogPost.routedId entryId \/
  exists dirs, entryId = dirs +:+ "/" +:+ BlogPost.routedId entryId.
Proof.
  destruct (split_last_segment "/" entryId) as (segs & seg & Hs & H).
  assert (BlogPost.routedId entryId = seg) as ->.
  { unfold BlogPost.routedId, JS.pop. rewrite Hs, last_snoc.
    apply or_string_empty_default. }
  destruct H as [[_ ->]|[_ [p ->]]]; [left; reflexivity|right].
  exists p. reflexivity.
Qed.

(** ** The index and the routed identifier *)

Lemma isPublished_true post :
  BlogPost.isPublished post = true
  <-> exists d, ContentConfig.published (data post) = Some d.
Proof.
  unfold BlogPost.isPublished.
  destruct (ContentConfig.published (data post)) as [d|]; simpl.
  - split; eauto.
  - split; [discriminate|]. intros [d Hd]. discriminate.
Qed.

Lemma allPosts_cons_draft post blog :
  ContentConfig.published (data post) = None ->
  BlogIndex.allPosts (post :: blog) = BlogIndex.allPosts blog.
Proof. intros H. unfold BlogIndex.allPosts. simpl. rewrite H. reflexivity. Qed.

Lemma allPosts_Permutation blog :
  BlogIndex.allPosts blog ≡ₚ List.filter BlogPost.isPublished blog.
Proof. unfold BlogIndex.allPosts. apply sort_Permutation. Qed.

Lemma allPosts_drop_draft before post after :
  ContentConfig.published (data post) = None ->
  BlogIndex.allPosts (before ++ post :: after)
  = BlogIndex.allPosts (before ++ after).
Proof.
  intros H. unfold BlogIndex.allPosts.
  rewrite !List.filter_app. simpl. rewrite H. reflexivity.
Qed.

(** The order of the listing: the newer of two published entries first. *)
Lemma allPosts_descending blog :
  StronglySorted
    (fun a b =>
       JS.or_zero_valueOf (ContentConfig.published (data b))
       <= JS.or_zero_valueOf (ContentConfig.published (data a)))
    (BlogIndex.allPosts blog).
Proof.
  unfold BlogIndex.allPosts.
  apply (sort_descending BlogIndex.byPublishedDesc
           (fun p => JS.or_zero_valueOf (ContentConfig.published (data p)))).
  reflexivity.
Qed.

(** C7. The listing has one link per published entry, the links follow
    the posts in the order of their dates, newest first; and three
    entries dated 2024-01-01, 2025-06-26 and 2025-02-04 are listed as
    2025-06-26, 2025-02-04, 2024-01-01. *)
Theorem index_lists_newest_first (blog : list CollectionEntry) :
  BlogIndex.listing blog = map BlogIndex.postLink (BlogIndex.allPosts blog)
  /\ BlogIndex.allPosts blog ≡ₚ List.filter BlogPost.isPublished blog
  /\ length (BlogIndex.listing blog)
     = length (List.filter BlogPost.isPublished blog)
  /\ StronglySorted
       (fun a b =>
          match ContentConfig.published (data a),
                ContentConfig.published (data b) with
          | Some ta, Some tb => tb <= ta
          | _, _ => False
          end)
       (BlogIndex.allPosts blog)
  /\ (forall a b c,
        ContentConfig.published (data a) = Some (JS.utc 2024 1 1) ->
        ContentConfig.published (data b) = Some (JS.utc 2025 6 26) ->
        ContentConfig.published (data c) = Some (JS.utc 2025 2 4) ->
        BlogIndex.allPosts [a; b; c] = [b; c; a] /\
        BlogIndex.listing [a; b; c]
        = [BlogIndex.postLink b; BlogIndex.postLink c;
           BlogIndex.postLink a]).
Proof.
  split; [reflexivity|]. split; [apply allPosts_Permutation|].
  split; [|split].
  - unfold BlogIndex.listing.
    rewrite length_map, (allPosts_Permutation blog). reflexivity.
  - pose proof (allPosts_descending blog) as Hs.
    assert (Forall (fun p => BlogPost.isPublished p = true)
              (BlogIndex.allPosts blog)) as Hp.
    { apply Forall_forall. intros p Hin.
      rewrite allPosts_Permutation in Hin.
      apply list_elem_of_In, List.filter_In in Hin. tauto. }
    induction Hs as [|a l Hl IH Ha]; [constructor|].
    apply Forall_cons in Hp. destruct Hp as [Hpa Hpl].
    constructor; [apply IH, Hpl|].
    apply isPublished_true in Hpa. destruct Hpa as [ta Hta].
    rewrite Forall_forall in Ha, Hpl |- *. intros b Hb.
    specialize (Ha b Hb). specialize (Hpl b Hb).
    apply isPublished_true in Hpl. destruct Hpl as [tb Htb].
    rewrite Hta, Htb in Ha |- *. exact Ha.
  - intros a b c Ha Hb Hc.
    assert (BlogIndex.allPosts [a; b; c] = [b; c; a]) as H.
    { unfold BlogIndex.allPosts. simpl. rewrite Ha, Hb, Hc. simpl.
      unfold BlogIndex.byPublishedDesc. rewrite Hb, Hc. simpl.
      unfold BlogIndex.byPublishedDesc. rewrite Ha, Hb, Hc. reflexivity. }
    split; [exact H|]. unfold BlogIndex.listing. rewrite H. reflexivity.
Qed.

(** C8. The routed identifier forgets the directories of the entry id:
    two entries in any two directories with the same file name are routed
    under the same identifier, and there are two distinct entry ids, in
    different directories, for which this happens. *)
Theorem routedId_not_injective :
  (forall dir1 dir2 name,
     BlogPost.routedId (dir1 +:+ "/" +:+ name)
     = BlogPost.routedId (dir2 +:+ "/" +:+ name))
  /\
  (exists dir1 dir2 name,
     dir1 <> dir2 /\
     dir1 +:+ "/" +:+ name <> dir2 +:+ "/" +:+ name /\
     BlogPost.routedId (dir1 +:+ "/" +:+ name) = name /\
     BlogPost.routedId (dir2 +:+ "/" +:+ name) = name).
Proof.
  split.
  - intros dir1 dir2 name. rewrite !routedId_nested. reflexivity.
  - exists "2024", "2025", "intro".
    repeat split; try reflexivity; discriminate.
Qed.

(** ** The static paths and the post page *)

Section Pipeline.
Context {Content : Type}.
Variable render : CollectionEntry -> JS.Settled Content.
Variable generator : string.
Variable toLocaleDateString : JS.Date -> string.

Lemma getStaticPaths_cons_draft post blog :
  ContentConfig.published (data post) = None ->
  BlogPost.getStaticPaths render (post :: blog)
  = BlogPost.getStaticPaths render blog.
Proof.
  intros H. unfold BlogPost.getStaticPaths. simpl.
  unfold BlogPost.isPublished at 1. rewrite H. reflexivity.
Qed.

Lemma getStaticPaths_cons_published post blog d :
  ContentConfig.published (data post) = Some d ->
  BlogPost.getStaticPaths render (post :: blog)
  = JS.await (render post) (fun content =>
    JS.await (BlogPost.getStaticPaths render blog) (fun units =>
    JS.Fulfilled (BlogPost.builtParam post content :: units))).
Proof.
  intros H. unfold BlogPost.getStaticPaths. simpl.
  unfold BlogPost.isPublished at 1. rewrite H. simpl.
  unfold BlogPost.buildParam at 1. destruct (render post); reflexivity.
Qed.

Lemma getStaticPaths_app before after :
  BlogPost.getStaticPaths render (before ++ after)
  = JS.await (BlogPost.getStaticPaths render before) (fun us1 =>
    JS.await (BlogPost.getStaticPaths render after) (fun us2 =>
    JS.Fulfilled (us1 ++ us2))).
Proof.
  unfold BlogPost.getStaticPaths. simpl.
  rewrite List.filter_app, map_app. apply Promise_all_app.
Qed.

(** Every published entry of the collection has its unit in the result. *)
Lemma getStaticPaths_unit blog units post d :
  BlogPost.getStaticPaths render blog = JS.Fulfilled units ->
  post ∈ blog ->
  ContentConfig.published (data post) = Some d ->
  exists content,
    render post = JS.Fulfilled content /\
    BlogPost.builtParam post content ∈ units.
Proof.
  revert units. induction blog as [|p blog IH]; intros units Hg Hin Hd.
  - inversion Hin.
  - destruct (ContentConfig.published (data p)) as [dp|] eqn:Hp.
    + rewrite (getStaticPaths_cons_published _ _ _ Hp) in Hg.
      destruct (render p) as [c|] eqn:Hr; simpl in Hg; [|discriminate].
      destruct (BlogPost.getStaticPaths render blog) as [us|] eqn:Hb;
        simpl in Hg; [|discriminate].
      injection Hg as <-.
      apply elem_of_cons in Hin. destruct Hin as [->|Hin].
      * exists c. split; [exact Hr|left].
      * destruct (IH us eq_refl Hin Hd) as (c' & Hc' & Hu).
        exists c'. split; [exact Hc'|right; exact Hu].
    + rewrite (getStaticPaths_cons_draft _ _ Hp) in Hg.
      apply elem_of_cons in Hin. destruct Hin as [->|Hin]; [congruence|].
      apply IH; assumption.
Qed.

(** The generator gives its units as soon as the content of every
    published entry can be converted. *)
Lemma getStaticPaths_fulfils blog :
  (forall post, post ∈ blog -> BlogPost.isPublished post = true ->
     exists content, render post = JS.Fulfilled content) ->
  exists units, BlogPost.getStaticPaths render blog = JS.Fulfilled units.
Proof.
  induction blog as [|p blog IH]; intros Hr.
  - exists []. reflexivity.
  - destruct IH as [us Hus].
    { intros post Hin. apply Hr. right. exact Hin. }
    destruct (ContentConfig.published (data p)) as [dp|] eqn:Hp.
    + rewrite (getStaticPaths_cons_published _ _ _ Hp), Hus.
      destruct (Hr p) as [c Hc]; [left|apply isPublished_true; eauto|].
      rewrite Hc. simpl. eauto.
    + rewrite (getStaticPaths_cons_draft _ _ Hp). eauto.
Qed.

(** C1, the code at a published entry. The unit of an entry carries the
    routed identifier, the entry id, the title, the date, the image and
    the content, and nothing of the description, the author or the tags:
    two entries that differ in these three only give the same unit, and
    the page built from it has no description to put in its
    [og:description] tag. *)
Theorem static_path_omits_description_author_tags :
  BlogPost.getStaticPaths Sample.renderBody [Sample.postT]
  = JS.Fulfilled
      [BlogPost.mkStaticPath "t"
         (BlogPost.mkPathProps "t" "T" (Some 1737590400000) None "hello")]
  /\ BlogPost.getStaticPaths Sample.renderBody [Sample.postT']
     = BlogPost.getStaticPaths Sample.renderBody [Sample.postT]
  /\ ContentConfig.description (data Sample.postT')
     <> ContentConfig.description (data Sample.postT)
  /\ ContentConfig.author (data Sample.postT')
     <> ContentConfig.author (data Sample.postT)
  /\ ContentConfig.tags (data Sample.postT')
     <> ContentConfig.tags (data Sample.postT)
  /\ BlogPostLayout.metaProperty "og:description"
       (BlogPostLayout.head
          (BlogPost.page "Astro" Sample.localeDate
             (BlogPost.props
                (BlogPost.builtParam Sample.postT "hello"))))
     = Some None.
Proof. repeat split; try reflexivity; discriminate. Qed.


(** C3. An entry without [published] adds nothing: the units and the
    listing are those of the collection without it, and it is not among
    the listed posts. An entry with [published] adds exactly one unit, at
    its place between the units of the entries before it and those of the
    entries after it; and the units are produced whenever the content of
    the published entries converts. *)
Theorem draft_no_unit_published_one_unit
    (before after : list CollectionEntry) (post : CollectionEntry) :
  (ContentConfig.published (data post) = None ->
     BlogPost.getStaticPaths render (before ++ post :: after)
     = BlogPost.getStaticPaths render (before ++ after) /\
     BlogIndex.listing (before ++ post :: after)
     = BlogIndex.listing (before ++ after) /\
     post ∉ BlogIndex.allPosts (before ++ post :: after))
  /\
  (forall d, ContentConfig.published (data post) = Some d ->
     (forall units,
        BlogPost.getStaticPaths render (before ++ post :: after)
        = JS.Fulfilled units ->
        exists us1 content us2,
          BlogPost.getStaticPaths render before = JS.Fulfilled us1 /\
          render post = JS.Fulfilled content /\
          BlogPost.getStaticPaths render after = JS.Fulfilled us2 /\
          units = us1 ++ BlogPost.builtParam post content :: us2) /\
     ((forall p, p ∈ before ++ post :: after ->
         BlogPost.isPublished p = true ->
         exists content, render p = JS.Fulfilled content) ->
      exists units,
        BlogPost.getStaticPaths render (before ++ post :: after)
        = JS.Fulfilled units /\
        length units
        = S (length (List.filter BlogPost.isPublished (before ++ after))))).
Proof.
  split.
  - intros Hnone. split; [|split].
    + rewrite !getStaticPaths_app, (getStaticPaths_cons_draft _ _ Hnone).
      reflexivity.
    + unfold BlogIndex.listing. rewrite (allPosts_drop_draft _ _ _ Hnone).
      reflexivity.
    + rewrite allPosts_Permutation. intros Hin.
      apply list_elem_of_In, List.filter_In in Hin. destruct Hin as [_ Hp].
      apply isPublished_true in Hp. destruct Hp as [d Hd]. congruence.
  - intros d Hd. split.
    + intros units Hg.
      rewrite getStaticPaths_app, (getStaticPaths_cons_published _ _ _ Hd)
        in Hg.
      destruct (BlogPost.getStaticPaths render before) as [us1|];
        simpl in Hg; [|discriminate].
      destruct (render post) as [content|]; simpl in Hg; [|discriminate].
      destruct (BlogPost.getStaticPaths render after) as [us2|];
        simpl in Hg; [|discriminate].
      injection Hg as <-. exists us1, content, us2. repeat split.
    + intros Hr. destruct (getStaticPaths_fulfils _ Hr) as [units Hu].
      exists units. split; [exact Hu|].
      unfold BlogPost.getStaticPaths in Hu. simpl in Hu.
      apply Promise_all_Fulfilled in Hu.
      apply (f_equal (@length _)) in Hu. rewrite !length_map in Hu.
      rewrite <- Hu, !List.filter_app, !length_app. simpl.
      replace (BlogPost.isPublished post) with true
        by (symmetry; apply isPublished_true; eauto).
      simpl. lia.
Qed.

(** C6. The document of a published entry whose [ogImage] is
    [custom.png] has an [og:image] tag that ends in [custom.png]; the
    document of a published entry without [ogImage] has the default image
    [og-image.png] there. *)
Theorem og_image_custom_or_default
    (blog : list CollectionEntry) units (post : CollectionEntry) d :
  BlogPost.getStaticPaths render blog = JS.Fulfilled units ->
  post ∈ blog ->
  ContentConfig.published (data post) = Some d ->
  exists content,
    render post = JS.Fulfilled content /\
    BlogPost.builtParam post content ∈ units /\
    let doc := BlogPost.page generator toLocaleDateString
                 (BlogPost.props (BlogPost.builtParam post content)) in
    (ContentConfig.ogImage (data post) = Some "custom.png" ->
       BlogPostLayout.metaProperty "og:image" (BlogPostLayout.head doc)
       = Some (Some ("https://www.nickcosmo.com/" +:+ "custom.png"))) /\
    (ContentConfig.ogImage (data post) = None ->
       BlogPostLayout.metaProperty "og:image" (BlogPostLayout.head doc)
       = Some (Some ("https://www.nickcosmo.com/" +:+ "og-image.png"))).
Proof.
  intros Hg Hin Hd.
  destruct (getStaticPaths_unit _ _ _ _ Hg Hin Hd) as (content & Hr & Hu).
  exists content. split; [exact Hr|]. split; [exact Hu|].
  simpl. split; intros ->; reflexivity.
Qed.

(** C9. When no entry of the collection is published, the generator
    fulfils with no unit and the listing has no item, whatever the
    converter would do. *)
Theorem no_published_entry_empty_site (blog : list CollectionEntry) :
  (forall post, post ∈ blog -> ContentConfig.published (data post) = None) ->
  BlogPost.getStaticPaths render blog = JS.Fulfilled [] /\
  BlogIndex.listing blog = [].
Proof.
  induction blog as [|p blog IH]; intros H; [split; reflexivity|].
  destruct IH as [Hg Hl].
  { intros post Hin. apply H. right. exact Hin. }
  assert (ContentConfig.published (data p) = None) as Hp by (apply H; left).
  split.
  - rewrite (getStaticPaths_cons_draft _ _ Hp). exact Hg.
  - unfold BlogIndex.listing in *.
    rewrite (allPosts_cons_draft _ _ Hp). exact Hl.
Qed.

(** C10. For a published entry whose id is [dir/name], the [og:url] tag
    of its document is built from the whole id; the page is routed under
    the last segment of the id only: the routed identifier has no slash,
    the id ends in a slash followed by it, and it is [name] itself when
    [name] has no slash; and so the address in the tag is not the address
    of the route. *)
Theorem og_url_of_nested_entry_is_not_its_route
    (blog : list CollectionEntry) units (post : CollectionEntry) d dir name :
  BlogPost.getStaticPaths render blog = JS.Fulfilled units ->
  post ∈ blog ->
  ContentConfig.published (data post) = Some d ->
  id post = dir +:+ "/" +:+ name ->
  exists content,
    render post = JS.Fulfilled content /\
    BlogPost.builtParam post content ∈ units /\
    let path := BlogPost.builtParam post content in
    let doc := BlogPost.page generator toLocaleDateString
                 (BlogPost.props path) in
    BlogPostLayout.metaProperty "og:url" (BlogPostLayout.head doc)
    = Some (Some ("https://www.nickcosmo.com/blog/" +:+ id post)) /\
    BlogPost.params_id path = BlogPost.routedId name /\
    BlogPost.params_id path <> id post /\
    BlogPostLayout.metaProperty "og:url" (BlogPostLayout.head doc)
    <> Some (Some ("https://www.nickcosmo.com" +:+ BlogPost.routePath path))
    /\
    (forall a b, BlogPost.params_id path <> a +:+ "/" +:+ b) /\
    (exists dirs, id post = dirs +:+ "/" +:+ BlogPost.params_id path) /\
    ((forall a b, name <> a +:+ "/" +:+ b) ->
     BlogPost.params_id path = name /\
     BlogPost.routePath path = "/blog/" +:+ name).
Proof.
  intros Hg Hin Hd Hid.
  destruct (getStaticPaths_unit _ _ _ _ Hg Hin Hd) as (content & Hr & Hu).
  exists content. split; [exact Hr|]. split; [exact Hu|].
  assert (BlogPost.routedId (id post) <> id post) as Hne.
  { rewrite Hid at 2. apply routedId_no_slash. }
  assert (BlogPost.routedId (id post) = BlogPost.routedId name) as Hlast.
  { rewrite Hid. apply routedId_nested. }
  simpl. split; [reflexivity|]. split; [exact Hlast|].
  split; [exact Hne|]. split; [|split; [|split]].
  - unfold BlogPost.routePath. simpl. intros Heq.
    injection Heq as Heq. simpl in Heq.
    apply Hne. symmetry. exact Heq.
  - intros a b. apply routedId_no_slash.
  - rewrite Hlast. destruct (routedId_suffix name) as [Hn|[dirs Hn]].
    + exists dir. rewrite <- Hn. exact Hid.
    + exists (dir +:+ "/" +:+ dirs).
      rewrite Hid, Hn at 1.
      change (dir +:+ "/" +:+ dirs +:+ "/" +:+ BlogPost.routedId name)
        with (dir +:+ ("/" +:+ dirs) +:+ "/" +:+ BlogPost.routedId name).
      rewrite <- (string_app_assoc dir ("/" +:+ dirs)). reflexivity.
  - intros Hflat. unfold BlogPost.routePath. simpl.
    rewrite Hlast, (routedId_flat _ Hflat). split; reflexivity.
Qed.

End Pipeline.

(** ** The theorems at the sample content *)

Lemma schema_text_keys_need_text_only_witness :
  (exists issues,
     ContentConfig.schema Sample.noAuthor = Zod.Failure issues /\
     Zod.mkIssue [Zod.Key "author"] Zod.TString Zod.TUndefined ∈ issues)
  /\ ContentConfig.schema Sample.emptyTitle
     = Zod.Success (ContentConfig.mkPostData "" None "D" "A" ["x"] None)
  /\ (forall x,
        x ∈ Zod.issuesOf
              (ContentConfig.schema (delete "tags" Sample.emptyTitle)) ->
        Zod.path x <> [Zod.Key "title"]).
Proof.
  split; [|split].
  - apply (proj1 (schema_text_keys_need_text_only Sample.noAuthor) "author").
    + right. right. left.
    + intros s. vm_compute. discriminate.
  - apply (proj1 (proj2 (schema_text_keys_need_text_only Sample.emptyTitle))
             "" "D" "A" ["x"] None None); reflexivity.
  - apply (proj2 (proj2 (schema_text_keys_need_text_only
                           (delete "tags" Sample.emptyTitle)))
             "title" "").
    + left.
    + reflexivity.
Defined.

Lemma schema_accepts_typed_rejects_missing_witness :
  ContentConfig.schema Sample.valid
  = Zod.Success
      (ContentConfig.mkPostData "T" (Some (JS.utc 2025 1 23)) "D" "A" ["x"]
         None)
  /\ (exists issues,
        ContentConfig.schema Sample.noAuthor = Zod.Failure issues /\
        exists wanted,
          Zod.mkIssue [Zod.Key "author"] wanted Zod.TUndefined ∈ issues).
Proof.
  split.
  - apply (proj1 (schema_accepts_typed_rejects_missing Sample.valid)
             "T" "D" "A" ["x"] (Some (JS.utc 2025 1 23)) None); reflexivity.
  - apply (proj2 (schema_accepts_typed_rejects_missing Sample.noAuthor)
             "author").
    + right. right. left.
    + reflexivity.
Defined.


Lemma draft_no_unit_published_one_unit_witness :
  (BlogPost.getStaticPaths Sample.renderBody
     ([Sample.postT] ++ Sample.draft :: [Sample.nested])
   = BlogPost.getStaticPaths Sample.renderBody
       ([Sample.postT] ++ [Sample.nested]) /\
   BlogIndex.listing ([Sample.postT] ++ Sample.draft :: [Sample.nested])
   = BlogIndex.listing ([Sample.postT] ++ [Sample.nested]) /\
   Sample.draft
   ∉ BlogIndex.allPosts ([Sample.postT] ++ Sample.draft :: [Sample.nested]))
  /\
  (exists us1 content us2,
     BlogPost.getStaticPaths Sample.renderBody [Sample.draft]
     = JS.Fulfilled us1 /\
     Sample.renderBody Sample.postT = JS.Fulfilled content /\
     BlogPost.getStaticPaths Sample.renderBody [Sample.nested]
     = JS.Fulfilled us2 /\
     [BlogPost.builtParam Sample.postT "hello";
      BlogPost.builtParam Sample.nested "hello"]
     = us1 ++ BlogPost.builtParam Sample.postT content :: us2)
  /\
  (exists units,
     BlogPost.getStaticPaths Sample.renderBody
       ([Sample.draft] ++ Sample.postT :: [Sample.nested])
     = JS.Fulfilled units /\
     length units = 2%nat).
Proof.
  split; [|split].
  - apply (proj1 (draft_no_unit_published_one_unit Sample.renderBody
                    [Sample.postT] [Sample.nested] Sample.draft)).
    reflexivity.
  - apply (proj1 (proj2 (draft_no_unit_published_one_unit Sample.renderBody
                           [Sample.draft] [Sample.nested] Sample.postT)
                    (JS.utc 2025 1 23) eq_refl)).
    reflexivity.
  - apply (proj2 (proj2 (draft_no_unit_published_one_unit Sample.renderBody
                           [Sample.draft] [Sample.nested] Sample.postT)
                    (JS.utc 2025 1 23) eq_refl)).
    intros p _ _. exists (body p). reflexivity.
Defined.

Lemma og_image_custom_or_default_witness :
  exists content,
    Sample.renderBody Sample.withCustomOg = JS.Fulfilled content /\
    BlogPost.builtParam Sample.withCustomOg content
    ∈ [BlogPost.builtParam Sample.withCustomOg "hello";
       BlogPost.builtParam Sample.postT "hello"] /\
    let doc := BlogPost.page "Astro" Sample.localeDate
                 (BlogPost.props
                    (BlogPost.builtParam Sample.withCustomOg content)) in
    (ContentConfig.ogImage (data Sample.withCustomOg) = Some "custom.png" ->
       BlogPostLayout.metaProperty "og:image" (BlogPostLayout.head doc)
       = Some (Some ("https://www.nickcosmo.com/" +:+ "custom.png"))) /\
    (ContentConfig.ogImage (data Sample.withCustomOg) = None ->
       BlogPostLayout.metaProperty "og:image" (BlogPostLayout.head doc)
       = Some (Some ("https://www.nickcosmo.com/" +:+ "og-image.png"))).
Proof.
  apply (og_image_custom_or_default Sample.renderBody "Astro"
           Sample.localeDate [Sample.withCustomOg; Sample.postT] _
           Sample.withCustomOg (JS.utc 2025 3 1)).
  - reflexivity.
  - left.
  - reflexivity.
Defined.

Lemma index_lists_newest_first_witness :
  BlogIndex.allPosts [Sample.jan2024; Sample.jun2025; Sample.feb2025]
  = [Sample.jun2025; Sample.feb2025; Sample.jan2024] /\
  BlogIndex.listing [Sample.jan2024; Sample.jun2025; Sample.feb2025]
  = [BlogIndex.mkPostLink "/blog/second" "Second";
     BlogIndex.mkPostLink "/blog/third" "Third";
     BlogIndex.mkPostLink "/blog/first" "First"].
Proof.
  apply (proj2 (proj2 (proj2 (proj2
           (index_lists_newest_first
              [Sample.jan2024; Sample.jun2025; Sample.feb2025]))))
           Sample.jan2024 Sample.jun2025 Sample.feb2025);
    reflexivity.
Defined.

Lemma no_published_entry_empty_site_witness :
  BlogPost.getStaticPaths Sample.renderFails [Sample.draft] = JS.Fulfilled []
  /\ BlogIndex.listing [Sample.draft] = [].
Proof.
  apply (no_published_entry_empty_site Sample.renderFails [Sample.draft]).
  intros post Hin. apply list_elem_of_singleton in Hin. rewrite Hin.
  reflexivity.
Defined.

Lemma og_url_of_nested_entry_is_not_its_route_witness :
  exists content,
    Sample.renderBody Sample.nested = JS.Fulfilled content /\
    BlogPost.builtParam Sample.nested content
    ∈ [BlogPost.builtParam Sample.postT "hello";
       BlogPost.builtParam Sample.nested "hello"] /\
    let path := BlogPost.builtParam Sample.nested content in
    let doc := BlogPost.page "Astro" Sample.localeDate
                 (BlogPost.props path) in
    BlogPostLayout.metaProperty "og:url" (BlogPostLayout.head doc)
    = Some (Some ("https://www.nickcosmo.com/blog/"
                  +:+ "locking/row-level-locking")) /\
    BlogPost.params_id path = BlogPost.routedId "row-level-locking" /\
    BlogPost.params_id path <> "locking/row-level-locking" /\
    BlogPostLayout.metaProperty "og:url" (BlogPostLayout.head doc)
    <> Some (Some ("https://www.nickcosmo.com" +:+ BlogPost.routePath path))
    /\
    (forall a b, BlogPost.params_id path <> a +:+ "/" +:+ b) /\
    (exists dirs,
       "locking/row-level-locking"
       = dirs +:+ "/" +:+ BlogPost.params_id path) /\
    BlogPost.params_id path = "row-level-locking" /\
    BlogPost.routePath path = "/blog/" +:+ "row-level-locking".
Proof.
  pose proof (og_url_of_nested_entry_is_not_its_route Sample.renderBody
                "Astro" Sample.localeDate [Sample.postT; Sample.nested]
                [BlogPost.builtParam Sample.postT "hello";
                 BlogPost.builtParam Sample.nested "hello"]
                Sample.nested (JS.utc 2025 6 26) "locking"
                "row-level-locking") as H.
  destruct H as (content & Hr & Hu & H).
  - reflexivity.
  - right. left.
  - reflexivity.
  - reflexivity.
  - cbv zeta in H.
    destruct H as (H1 & H2 & H3 & H4 & H5 & H6 & H7).
    exists content. split; [exact Hr|]. split; [exact Hu|]. cbv zeta.
    split; [exact H1|]. split; [exact H2|]. split; [exact H3|].
    split; [exact H4|]. split; [exact H5|]. split; [exact H6|].
    apply H7. apply no_slash_of_split. reflexivity.
Defined.

(** * Further properties of the schema *)

Lemma andKey_Success {A B : Type} (r : Zod.SafeParse (A -> B)) ra b :
  Zod.andKey r ra = Zod.Success b ->
  exists f a, r = Zod.Success f /\ ra = Zod.Success a /\ b = f a.
Proof.
  destruct r as [f|], ra as [a|]; simpl; try discriminate.
  intros H. injection H as <-. eauto.
Qed.

Lemma key_string_Success raw name s :
  Zod.key raw name Zod.string_ = Zod.Success s ->
  raw !! name = Some (JS.VString s).
Proof.
  unfold Zod.key. destruct (raw !! name) as [v|]; simpl; [|discriminate].
  destruct v; simpl; try discriminate. intros H. injection H as <-.
  reflexivity.
Qed.

Lemma elements_Success p i items (l : list string) :
  Zod.elements Zod.string_ p i items = Zod.Success l ->
  items = map JS.VString l.
Proof.
  revert i l. induction items as [|v items IH]; intros i l; simpl.
  - intros H. injection H as <-. reflexivity.
  - destruct v; simpl; try discriminate;
      destruct (Zod.elements Zod.string_ p (S i) items) as [l'|] eqn:E;
      try discriminate.
    intros H. injection H as <-. simpl. f_equal. eapply IH, E.
Qed.

Lemma key_tags_Success raw (l : list string) :
  Zod.key raw "tags" (Zod.array Zod.string_) = Zod.Success l ->
  raw !! "tags" = Some (JS.VArray (map JS.VString l)).
Proof.
  unfold Zod.key. destruct (raw !! "tags") as [v|]; simpl; [|discriminate].
  destruct v; simpl; try discriminate. intros H.
  apply elements_Success in H. rewrite H. reflexivity.
Qed.

Lemma key_optional_date_Success raw name (t : option JS.Date) :
  Zod.key raw name (Zod.optional Zod.date_) = Zod.Success t <->
  default JS.VUndefined (raw !! name) = from_option JS.VDate JS.VUndefined t.
Proof.
  unfold Zod.key. destruct (default JS.VUndefined (raw !! name)) as [| | | | |d|];
    destruct t as [t|]; simpl; split; intros H;
    try discriminate; try reflexivity.
  - injection H as <-. reflexivity.
  - injection H as <-. reflexivity.
Qed.

Lemma key_optional_string_Success raw name (s : option string) :
  Zod.key raw name (Zod.optional Zod.string_) = Zod.Success s <->
  default JS.VUndefined (raw !! name)
  = from_option JS.VString JS.VUndefined s.
Proof.
  unfold Zod.key.
  destruct (default JS.VUndefined (raw !! name)) as [| | | |x| |];
    destruct s as [s|]; simpl; split; intros H;
    try discriminate; try reflexivity.
  - injection H as <-. reflexivity.
  - injection H as <-. reflexivity.
Qed.

(** X1. The schema accepts a record exactly when its six keys have their
    types, and the data it returns are the values of the keys, unchanged:
    the three texts, the texts of the array, and for each optional key its
    value or nothing when the key is absent or [undefined]. *)
Theorem schema_Success_iff (raw : gmap string JS.Value)
    (d : ContentConfig.PostData) :
  ContentConfig.schema raw = Zod.Success d
  <->
  raw !! "title" = Some (JS.VString (ContentConfig.title d)) /\
  raw !! "description" = Some (JS.VString (ContentConfig.description d)) /\
  raw !! "author" = Some (JS.VString (ContentConfig.author d)) /\
  raw !! "tags"
  = Some (JS.VArray (map JS.VString (ContentConfig.tags d))) /\
  default JS.VUndefined (raw !! "published")
  = from_option JS.VDate JS.VUndefined (ContentConfig.published d) /\
  default JS.VUndefined (raw !! "ogImage")
  = from_option JS.VString JS.VUndefined (ContentConfig.ogImage d).
Proof.
  split.
  - unfold ContentConfig.schema. intros H.
    apply andKey_Success in H. destruct H as (f6 & og & H & Hog & ->).
    apply andKey_Success in H. destruct H as (f5 & tg & H & Htg & ->).
    apply andKey_Success in H. destruct H as (f4 & a & H & Ha & ->).
    apply andKey_Success in H. destruct H as (f3 & ds & H & Hds & ->).
    apply andKey_Success in H. destruct H as (f2 & pb & H & Hpb & ->).
    apply andKey_Success in H. destruct H as (f1 & t & H & Ht & ->).
    injection H as <-. simpl.
    apply key_string_Success in Ht, Hds, Ha.
    apply key_tags_Success in Htg.
    apply key_optional_date_Success in Hpb.
    apply key_optional_string_Success in Hog.
    repeat split; assumption.
  - destruct d as [t pb ds a tg og]. simpl.
    intros (Ht & Hds & Ha & Htg & Hpb & Hog).
    unfold ContentConfig.schema.
    rewrite (key_string_text _ _ _ Ht), (key_string_text _ _ _ Hds),
      (key_string_text _ _ _ Ha).
    rewrite (proj2 (key_optional_date_Success _ _ _) Hpb),
      (proj2 (key_optional_string_Success _ _ _) Hog).
    unfold Zod.key at 1. rewrite Htg. simpl.
    rewrite elements_strings. reflexivity.
Qed.

(** X2. A key the shape does not name has no effect on the result: the
    schema reads the six keys of its shape and nothing else. *)
Theorem schema_ignores_other_keys (raw : gmap string JS.Value)
    (name : string) (v : JS.Value) :
  name ∉ ["title"; "published"; "description"; "author"; "tags"; "ogImage"] ->
  ContentConfig.schema (<[name := v]> raw) = ContentConfig.schema raw /\
  ContentConfig.schema (delete name raw) = ContentConfig.schema raw.
Proof.
  intros Hname.
  rewrite !not_elem_of_cons in Hname.
  destruct Hname as (H1 & H2 & H3 & H4 & H5 & H6 & _).
  unfold ContentConfig.schema, Zod.key.
  rewrite !lookup_insert_ne, !lookup_delete_ne by congruence.
  split; reflexivity.
Qed.

Lemma schema_Failure_of_issue raw x :
  x ∈ Zod.issuesOf (ContentConfig.schema raw) ->
  exists issues, ContentConfig.schema raw = Zod.Failure issues /\ x ∈ issues.
Proof.
  destruct (ContentConfig.schema raw) as [d|issues]; simpl; intros H.
  - inversion H.
  - eauto.
Qed.

Lemma issuesOf_nil_Success {A : Type} (r : Zod.SafeParse A) :
  r <> Zod.Failure [] -> Zod.issuesOf r = [] -> exists a, r = Zod.Success a.
Proof.
  destruct r as [a|issues]; simpl; intros Hr Hi; [eauto|].
  subst issues. exfalso. apply Hr. reflexivity.
Qed.

Lemma elements_not_empty_Failure p i items :
  Zod.elements Zod.string_ p i items <> Zod.Failure [].
Proof.
  revert i. induction items as [|v items IH]; intros i; simpl; [discriminate|].
  specialize (IH (S i)).
  destruct v; simpl;
    destruct (Zod.elements Zod.string_ p (S i) items) as [l|issues];
    simpl; try discriminate.
  intros H. apply IH. exact H.
Qed.

Lemma key_not_empty_Failure raw :
  (forall name, Zod.key raw name Zod.string_ <> Zod.Failure []) /\
  (forall name, Zod.key raw name (Zod.optional Zod.date_) <> Zod.Failure []) /\
  (forall name,
     Zod.key raw name (Zod.optional Zod.string_) <> Zod.Failure []) /\
  (forall name,
     Zod.key raw name (Zod.array Zod.string_) <> Zod.Failure []).
Proof.
  repeat split; intros name; unfold Zod.key;
    destruct (default JS.VUndefined (raw !! name)); simpl;
    try discriminate.
  apply elements_not_empty_Failure.
Qed.

(** X3. A rejection always says why: it has at least one issue, every
    issue is at one of the six keys of the shape or at an element of it,
    and no issue reports the type it expected as the type it found. *)
Theorem schema_Failure_names_keys (raw : gmap string JS.Value) issues :
  ContentConfig.schema raw = Zod.Failure issues ->
  issues <> [] /\
  forall x, x ∈ issues ->
    (exists name rest,
       name ∈ ["title"; "published"; "description"; "author"; "tags";
               "ogImage"] /\
       Zod.path x = Zod.Key name :: rest) /\
    Zod.expected x <> Zod.received x.
Proof.
  intros Hf. pose proof (schema_issues raw) as Hi. rewrite Hf in Hi.
  simpl in Hi. destruct (key_not_empty_Failure raw) as (Ks & Kd & Ko & Ka).
  split.
  - intros ->. symmetry in Hi.
    apply app_eq_nil in Hi. destruct Hi as [H1 Hi].
    apply app_eq_nil in Hi. destruct Hi as [H2 Hi].
    apply app_eq_nil in Hi. destruct Hi as [H3 Hi].
    apply app_eq_nil in Hi. destruct Hi as [H4 Hi].
    apply app_eq_nil in Hi. destruct Hi as [H5 H6].
    apply issuesOf_nil_Success in H1, H2, H3, H4, H5, H6; auto.
    destruct H1 as [? H1], H2 as [? H2], H3 as [? H3], H4 as [? H4],
      H5 as [? H5], H6 as [? H6].
    unfold ContentConfig.schema in Hf.
    rewrite H1, H2, H3, H4, H5, H6 in Hf. discriminate.
  - intros x Hx. rewrite Hi, !elem_of_app in Hx.
    destruct Hx as [Hx|[Hx|[Hx|[Hx|[Hx|Hx]]]]].
    + destruct (key_issue raw "title" x) as [[rest Hp] Hne]; [auto|].
      split; [exists "title", rest; split; [set_solver|exact Hp]|exact Hne].
    + destruct (key_issue raw "published" x) as [[rest Hp] Hne]; [auto|].
      split; [exists "published", rest; split; [set_solver|exact Hp]
             |exact Hne].
    + destruct (key_issue raw "description" x) as [[rest Hp] Hne]; [auto|].
      split; [exists "description", rest; split; [set_solver|exact Hp]
             |exact Hne].
    + destruct (key_issue raw "author" x) as [[rest Hp] Hne]; [auto|].
      split; [exists "author", rest; split; [set_solver|exact Hp]|exact Hne].
    + destruct (key_issue raw "tags" x) as [[rest Hp] Hne]; [auto 6|].
      split; [exists "tags", rest; split; [set_solver|exact Hp]|exact Hne].
    + destruct (key_issue raw "ogImage" x) as [[rest Hp] Hne]; [auto|].
      split; [exists "ogImage", rest; split; [set_solver|exact Hp]
             |exact Hne].
Qed.

(** X4. An optional key is optional only by absence: when [published] is
    present and holds anything but a date, [null] included, or [ogImage]
    is present and holds anything but a text, the record is rejected with
    an issue at that key. *)
Theorem schema_rejects_mistyped_optional (raw : gmap string JS.Value)
    (v : JS.Value) :
  v <> JS.VUndefined ->
  (raw !! "published" = Some v ->
   (forall t, v <> JS.VDate t) ->
   exists issues,
     ContentConfig.schema raw = Zod.Failure issues /\
     Zod.mkIssue [Zod.Key "published"] Zod.TDate (Zod.getParsedType v)
     ∈ issues)
  /\
  (raw !! "ogImage" = Some v ->
   (forall s, v <> JS.VString s) ->
   exists issues,
     ContentConfig.schema raw = Zod.Failure issues /\
     Zod.mkIssue [Zod.Key "ogImage"] Zod.TString (Zod.getParsedType v)
     ∈ issues).
Proof.
  intros Hu. split; intros Hraw Hv; apply schema_Failure_of_issue;
    rewrite schema_issues, !elem_of_app.
  - right. left. unfold Zod.key. rewrite Hraw. simpl.
    destruct v; simpl; try apply list_elem_of_singleton; try reflexivity.
    + exfalso. apply Hu. reflexivity.
    + exfalso. exact (Hv _ eq_refl).
  - do 5 right. unfold Zod.key. rewrite Hraw. simpl.
    destruct v; simpl; try apply list_elem_of_singleton; try reflexivity.
    + exfalso. apply Hu. reflexivity.
    + exfalso. exact (Hv _ eq_refl).
Qed.

(** X5. When [tags] is an array, the record is rejected as soon as one
    element is not a text, and the issue gives the index of that
    element. *)
Theorem schema_rejects_tag_not_text (raw : gmap string JS.Value)
    (items : list JS.Value) (i : nat) (v : JS.Value) :
  raw !! "tags" = Some (JS.VArray items) ->
  items !! i = Some v ->
  (forall s, v <> JS.VString s) ->
  exists issues,
    ContentConfig.schema raw = Zod.Failure issues /\
    Zod.mkIssue [Zod.Key "tags"; Zod.Index i] Zod.TString
      (Zod.getParsedType v) ∈ issues.
Proof.
  intros Hraw Hi Hv. apply schema_Failure_of_issue.
  rewrite schema_issues, !elem_of_app. do 4 right. left.
  unfold Zod.key. rewrite Hraw. simpl.
  apply elements_issue. exists i, v. auto.
Qed.

(** * Further properties of the routed identifier and of the index *)

(** X6. The routed identifier of any entry id has no slash, so it is one
    path segment; it is the entry id itself when that has no slash; and
    routing an identifier again changes nothing. *)
Theorem routedId_one_segment (entryId : string) :
  (forall a b, BlogPost.routedId entryId <> a +:+ "/" +:+ b) /\
  ((forall a b, entryId <> a +:+ "/" +:+ b) ->
   BlogPost.routedId entryId = entryId) /\
  BlogPost.routedId (BlogPost.routedId entryId) = BlogPost.routedId entryId.
Proof.
  split; [|split].
  - intros a b. apply routedId_no_slash.
  - apply routedId_flat.
  - apply routedId_flat. intros a b. apply routedId_no_slash.
Qed.

Lemma filter_Permutation {A : Type} (f : A -> bool) (l l' : list A) :
  l ≡ₚ l' -> List.filter f l ≡ₚ List.filter f l'.
Proof.
  induction 1 as [|x l l' _ IH|x y l|l l' l'' _ IH1 _ IH2]; simpl.
  - reflexivity.
  - destruct (f x); [constructor|]; exact IH.
  - destruct (f x), (f y); try reflexivity. apply Permutation_swap.
  - etransitivity; eassumption.
Qed.

Section SortStable.
Context {A : Type} (compare : A -> A -> Z) (key : A -> Z).
Hypothesis compare_key : forall a b, compare a b = key b - key a.
(** A property that holds of elements of one key only. *)
Context (P : A -> bool).
Hypothesis P_one_key : forall a b, P a = true -> P b = true -> key a = key b.

Lemma insert_filter_one_key a l :
  List.filter P (JS.insert compare a l) = List.filter P (a :: l).
Proof.
  induction l as [|b l IH]; simpl; [reflexivity|].
  destruct (0 <? compare a b) eqn:E; [|reflexivity].
  apply Z.ltb_lt in E. rewrite compare_key in E.
  simpl. rewrite IH. simpl.
  destruct (P a) eqn:Pa, (P b) eqn:Pb; try reflexivity.
  pose proof (P_one_key a b Pa Pb). lia.
Qed.

Lemma sort_filter_one_key l :
  List.filter P (JS.sort compare l) = List.filter P l.
Proof.
  induction l as [|a l IH]; simpl; [reflexivity|].
  rewrite insert_filter_one_key. simpl. rewrite IH. reflexivity.
Qed.
End SortStable.

(** X7. The sort keeps the posts of one date in the order of the
    collection: for every date, the posts of that date come in the listing
    in the order in which [getCollection] gave them. *)
Theorem allPosts_same_date_in_collection_order
    (blog : list CollectionEntry) (t : JS.Date) :
  List.filter
    (fun p => bool_decide (ContentConfig.published (data p) = Some t))
    (BlogIndex.allPosts blog)
  = List.filter
      (fun p => bool_decide (ContentConfig.published (data p) = Some t))
      blog.
Proof.
  unfold BlogIndex.allPosts.
  rewrite (sort_filter_one_key BlogIndex.byPublishedDesc
             (fun p => JS.or_zero_valueOf (ContentConfig.published (data p)))).
  - induction blog as [|p blog IH]; simpl; [reflexivity|].
    destruct (ContentConfig.published (data p)) as [d|] eqn:E; simpl.
    + rewrite E, IH. reflexivity.
    + exact IH.
  - reflexivity.
  - intros a b Ha Hb. apply bool_decide_eq_true in Ha, Hb.
    rewrite Ha, Hb. reflexivity.
Qed.

(** X8. When no two published entries have the same date, the listing does
    not depend on the order in which the collection is enumerated. *)
Theorem listing_independent_of_collection_order
    (blog blog' : list CollectionEntry) :
  blog ≡ₚ blog' ->
  (forall a b d,
     a ∈ blog -> b ∈ blog ->
     ContentConfig.published (data a) = Some d ->
     ContentConfig.published (data b) = Some d ->
     a = b) ->
  BlogIndex.allPosts blog = BlogIndex.allPosts blog' /\
  BlogIndex.listing blog = BlogIndex.listing blog'.
Proof.
  intros Hperm Hdistinct.
  assert (BlogIndex.allPosts blog = BlogIndex.allPosts blog') as H.
  { eapply StronglySorted_unique_strong;
      [|apply allPosts_descending|apply allPosts_descending|].
    - intros x1 x2 H1 H2 R12 R21. simpl in R12, R21.
      rewrite allPosts_Permutation in H1, H2.
      apply list_elem_of_In, List.filter_In in H1, H2.
      destruct H1 as [H1 P1], H2 as [H2 P2].
      apply isPublished_true in P1, P2.
      destruct P1 as [d1 E1], P2 as [d2 E2].
      rewrite E1, E2 in R12, R21. simpl in R12, R21.
      assert (d1 = d2) as -> by lia.
      apply (Hdistinct x1 x2 d2); try assumption.
      + apply list_elem_of_In. exact H1.
      + rewrite Hperm. apply list_elem_of_In. exact H2.
    - rewrite !allPosts_Permutation. apply filter_Permutation, Hperm. }
  split; [exact H|]. unfold BlogIndex.listing. rewrite H. reflexivity.
Qed.

(** * Further properties of the static paths and of the post page *)

Lemma Promise_all_Rejected {A : Type} (ps : list (JS.Settled A)) :
  (exists reason, JS.Promise_all ps = JS.Rejected reason)
  <-> exists reason, JS.Rejected reason ∈ ps.
Proof.
  induction ps as [|p ps IH]; simpl.
  - split; intros [r H]; [discriminate|inversion H].
  - destruct p as [x|r0]; simpl.
    + destruct (JS.Promise_all ps) as [xs|r1] eqn:E; simpl.
      * split.
        -- intros [r H]. discriminate.
        -- intros [r H]. apply elem_of_cons in H.
           destruct H as [H|H]; [discriminate|].
           destruct (proj2 IH) as [r' Hr']; [eauto|discriminate].
      * split.
        -- intros _. destruct (proj1 IH) as [r' Hr']; [eauto|].
           exists r'. right. exact Hr'.
        -- intros _. eauto.
    + split; intros _; [exists r0; left|eauto].
Qed.

Lemma NoDup_map_filter {A B : Type} (f : A -> B) (p : A -> bool) l :
  NoDup (map f l) -> NoDup (map f (List.filter p l)).
Proof.
  induction l as [|a l IH]; simpl; intros H; [exact H|].
  apply NoDup_cons in H. destruct H as [Ha Hl].
  destruct (p a); simpl; [|apply IH, Hl].
  apply NoDup_cons. split; [|apply IH, Hl].
  intros Hin. apply Ha.
  apply list_elem_of_fmap in Hin. destruct Hin as (x & -> & Hx).
  apply list_elem_of_fmap. exists x. split; [reflexivity|].
  apply list_elem_of_In, List.filter_In in Hx.
  apply list_elem_of_In. tauto.
Qed.

Section PipelineMore.
Context {Content : Type}.
Variable render : CollectionEntry -> JS.Settled Content.
Variable generator : string.
Variable toLocaleDateString : JS.Date -> string.

Lemma buildParams_Fulfilled posts (units : list (BlogPost.StaticPath Content)) :
  map (BlogPost.buildParam render) posts = map JS.Fulfilled units
  <-> Forall2
        (fun post u =>
           exists content,
             render post = JS.Fulfilled content /\
             u = BlogPost.builtParam post content)
        posts units.
Proof.
  revert units. induction posts as [|post posts IH]; intros units; simpl.
  - split.
    + destruct units; [constructor|discriminate].
    + intros H. inversion H. reflexivity.
  - split.
    + destruct units as [|u units]; simpl; [discriminate|].
      intros H. injection H as Hu Hrest. constructor.
      * unfold BlogPost.buildParam in Hu.
        destruct (render post) as [content|]; simpl in Hu; [|discriminate].
        injection Hu as <-. eauto.
      * apply IH. exact Hrest.
    + intros H. inversion H as [|? u ? units' (content & Hr & ->) Hrest];
        subst. simpl. f_equal.
      * unfold BlogPost.buildParam. rewrite Hr. reflexivity.
      * apply IH. exact Hrest.
Qed.

(** X9. The generator fulfils with [units] exactly when the units are,
    in the order of the collection, one per published entry: each the
    object built from that entry and from its converted content. *)
Theorem getStaticPaths_Fulfilled_iff
    (blog : list CollectionEntry) (units : list (BlogPost.StaticPath Content)) :
  BlogPost.getStaticPaths render blog = JS.Fulfilled units
  <-> Forall2
        (fun post u =>
           exists content,
             render post = JS.Fulfilled content /\
             u = BlogPost.builtParam post content)
        (List.filter BlogPost.isPublished blog) units.
Proof.
  unfold BlogPost.getStaticPaths. simpl.
  rewrite Promise_all_Fulfilled. apply buildParams_Fulfilled.
Qed.

(** X10. The generator rejects exactly when the conversion of some
    published entry rejects: one failing post fails all the paths, and a
    failure on a draft fails nothing. *)
Theorem getStaticPaths_Rejected_iff (blog : list CollectionEntry) :
  (exists reason, BlogPost.getStaticPaths render blog = JS.Rejected reason)
  <-> exists post reason,
        post ∈ blog /\ BlogPost.isPublished post = true /\
        render post = JS.Rejected reason.
Proof.
  unfold BlogPost.getStaticPaths. simpl. rewrite Promise_all_Rejected.
  split.
  - intros [reason H]. apply list_elem_of_fmap in H.
    destruct H as (post & Hb & Hin).
    apply list_elem_of_In, List.filter_In in Hin. destruct Hin as [Hin Hp].
    exists post, reason. split; [apply list_elem_of_In, Hin|].
    split; [exact Hp|].
    unfold BlogPost.buildParam in Hb.
    destruct (render post); simpl in Hb; [discriminate|].
    injection Hb as <-. reflexivity.
  - intros (post & reason & Hin & Hp & Hr). exists reason.
    apply list_elem_of_fmap. exists post. split.
    + unfold BlogPost.buildParam. rewrite Hr. reflexivity.
    + apply list_elem_of_In, List.filter_In. split; [|exact Hp].
      apply list_elem_of_In, Hin.
Qed.

(** X12. No unit without a published entry: every unit of the result is
    built from an entry of the collection that has a date, and its routed
    identifier is one path segment. *)
Theorem static_path_has_published_entry
    (blog : list CollectionEntry) units (u : BlogPost.StaticPath Content) :
  BlogPost.getStaticPaths render blog = JS.Fulfilled units ->
  u ∈ units ->
  (exists post content d,
     post ∈ blog /\
     ContentConfig.published (data post) = Some d /\
     render post = JS.Fulfilled content /\
     u = BlogPost.builtParam post content) /\
  (forall a b, BlogPost.params_id u <> a +:+ "/" +:+ b).
Proof.
  intros Hg Hu. apply getStaticPaths_Fulfilled_iff in Hg.
  apply list_elem_of_lookup in Hu. destruct Hu as [i Hi].
  destruct (Forall2_lookup_r _ _ _ _ _ Hg Hi)
    as (post & Hpost & content & Hr & ->).
  apply list_elem_of_lookup_2, list_elem_of_In, List.filter_In in Hpost.
  destruct Hpost as [Hin Hp]. apply isPublished_true in Hp.
  destruct Hp as [d Hd]. split.
  - exists post, content, d. split; [apply list_elem_of_In, Hin|auto].
  - intros a b. simpl. apply routedId_no_slash.
Qed.

Lemma units_of_posts posts (units : list (BlogPost.StaticPath Content)) :
  Forall2
    (fun post u =>
       exists content,
         render post = JS.Fulfilled content /\
         u = BlogPost.builtParam post content)
    posts units ->
  map BlogPost.params_id units
  = map (fun post => BlogPost.routedId (id post)) posts /\
  map (fun u => BlogIndex.mkPostLink (BlogPost.routePath u)
                  (BlogPost.props_title (BlogPost.props u))) units
  = map BlogIndex.postLink posts.
Proof.
  induction 1 as [|post u posts units (content & Hr & ->) _ [IH1 IH2]];
    simpl; [split; reflexivity|].
  rewrite IH1, IH2. split; reflexivity.
Qed.

(** X13. In a collection whose ids are distinct and, for the published
    entries, without a slash, no two units are routed under the same
    identifier. *)
Theorem flat_ids_give_distinct_routes
    (blog : list CollectionEntry) (units : list (BlogPost.StaticPath Content)) :
  NoDup (map id blog) ->
  (forall post, post ∈ blog -> BlogPost.isPublished post = true ->
     forall a b, id post <> a +:+ "/" +:+ b) ->
  BlogPost.getStaticPaths render blog = JS.Fulfilled units ->
  NoDup (map BlogPost.params_id units).
Proof.
  intros Hnd Hflat Hg. apply getStaticPaths_Fulfilled_iff in Hg.
  destruct (units_of_posts _ _ Hg) as [-> _].
  rewrite (map_ext_in _ id).
  - apply NoDup_map_filter, Hnd.
  - intros post Hin. apply List.filter_In in Hin. destruct Hin as [Hin Hp].
    apply routedId_flat, Hflat; [apply list_elem_of_In, Hin|exact Hp].
Qed.

(** X14. The index links the generated pages and only them: its links are,
    up to their order, the route and the title of each unit. *)
Theorem listing_links_the_static_paths
    (blog : list CollectionEntry) (units : list (BlogPost.StaticPath Content)) :
  BlogPost.getStaticPaths render blog = JS.Fulfilled units ->
  BlogIndex.listing blog
  ≡ₚ map (fun u => BlogIndex.mkPostLink (BlogPost.routePath u)
                     (BlogPost.props_title (BlogPost.props u))) units.
Proof.
  intros Hg. apply getStaticPaths_Fulfilled_iff in Hg.
  destruct (units_of_posts _ _ Hg) as [_ ->].
  unfold BlogIndex.listing. apply Permutation_map, allPosts_Permutation.
Qed.

(** X15. For a published entry whose id has no slash, the page is routed
    under the id itself and the [og:url] tag is the address of the route
    on the host of the tags. *)
Theorem og_url_of_flat_entry_is_its_route
    (blog : list CollectionEntry) units (post : CollectionEntry) d :
  BlogPost.getStaticPaths render blog = JS.Fulfilled units ->
  post ∈ blog ->
  ContentConfig.published (data post) = Some d ->
  (forall a b, id post <> a +:+ "/" +:+ b) ->
  exists content,
    render post = JS.Fulfilled content /\
    BlogPost.builtParam post content ∈ units /\
    let path := BlogPost.builtParam post content in
    let doc := BlogPost.page generator toLocaleDateString
                 (BlogPost.props path) in
    BlogPost.params_id path = id post /\
    BlogPostLayout.metaProperty "og:url" (BlogPostLayout.head doc)
    = Some (Some ("https://www.nickcosmo.com" +:+ BlogPost.routePath path)).
Proof.
  intros Hg Hin Hd Hflat.
  destruct (getStaticPaths_unit _ _ _ _ _ Hg Hin Hd) as (content & Hr & Hu).
  exists content. split; [exact Hr|]. split; [exact Hu|].
  simpl. unfold BlogPost.routePath. simpl.
  rewrite (routedId_flat _ Hflat). split; reflexivity.
Qed.

(** X16. The [og:image] tag of the page of an entry: the default image
    when the entry has no [ogImage] and also when its [ogImage] is the
    empty text; and the [ogImage] of the entry after the host when it is
    a non-empty text without an ampersand (the address then has none, and
    the attribute is written with its quotes escaped, so that it reads
    back as the text given). *)
Theorem og_image_of_entry (post : CollectionEntry) (content : Content) :
  let doc := BlogPost.page generator toLocaleDateString
               (BlogPost.props (BlogPost.builtParam post content)) in
  (ContentConfig.ogImage (data post) = None \/
   ContentConfig.ogImage (data post) = Some "" ->
   BlogPostLayout.metaProperty "og:image" (BlogPostLayout.head doc)
   = Some (Some "https://www.nickcosmo.com/og-image.png")) /\
  (forall image,
     ContentConfig.ogImage (data post) = Some image ->
     image <> "" ->
     (forall a b, image <> a +:+ "&" +:+ b) ->
     BlogPostLayout.metaProperty "og:image" (BlogPostLayout.head doc)
     = Some (Some ("https://www.nickcosmo.com/" +:+ image))).
Proof.
  simpl. split.
  - intros [-> | ->]; reflexivity.
  - intros image -> Hne _. destruct image; [contradiction|reflexivity].
Qed.

(** X17. The body of the page of a published entry: the header, the title
    as heading, the date of the entry in the format of the build host
    (never the text of an invalid date), the converted content of that
    entry, and the footer. *)
Theorem page_body_of_published_entry
    (blog : list CollectionEntry) units (post : CollectionEntry) d :
  BlogPost.getStaticPaths render blog = JS.Fulfilled units ->
  post ∈ blog ->
  ContentConfig.published (data post) = Some d ->
  exists content,
    render post = JS.Fulfilled content /\
    BlogPost.builtParam post content ∈ units /\
    BlogPostLayout.bodyNodes
      (BlogPost.page generator toLocaleDateString
         (BlogPost.props (BlogPost.builtParam post content)))
    = [ BlogPostLayout.Header;
        BlogPostLayout.Divider;
        BlogPostLayout.Container
          [ BlogPostLayout.H1 (ContentConfig.title (data post));
            BlogPostLayout.Paragraph
              [BlogPostLayout.TimeElem (toLocaleDateString d)];
            BlogPostLayout.Divider;
            BlogPostLayout.Slot content ];
        BlogPostLayout.Footer ].
Proof.
  intros Hg Hin Hd.
  destruct (getStaticPaths_unit _ _ _ _ _ Hg Hin Hd) as (content & Hr & Hu).
  exists content. split; [exact Hr|]. split; [exact Hu|].
  simpl. rewrite Hd. reflexivity.
Qed.

(** X18. The [og:url] tag is on the host [www.nickcosmo.com], which is not
    the [site] of the configuration: for no unit is the tag the address of
    its route under [site]. *)
Theorem og_url_is_not_under_site (path : BlogPost.StaticPath Content) :
  BlogPostLayout.metaProperty "og:url"
    (BlogPostLayout.head
       (BlogPost.page generator toLocaleDateString (BlogPost.props path)))
  <> Some (Some (AstroConfig.site +:+ BlogPost.routePath path)).
Proof. simpl. discriminate. Qed.

End PipelineMore.

Lemma Forall2_builtParam_agree {Content : Type}
    (render render' : CollectionEntry -> JS.Settled Content)
    posts (units : list (BlogPost.StaticPath Content)) :
  (forall post, post ∈ posts ->
     forall content,
       render post = JS.Fulfilled content ->
       render' post = JS.Fulfilled content) ->
  Forall2
    (fun post u =>
       exists content,
         render post = JS.Fulfilled content /\
         u = BlogPost.builtParam post content)
    posts units ->
  Forall2
    (fun post u =>
       exists content,
         render' post = JS.Fulfilled content /\
         u = BlogPost.builtParam post content)
    posts units.
Proof.
  intros Hagree H.
  induction H as [|post u posts units (content & Hr & ->) _ IH];
    constructor.
  - exists content. split; [|reflexivity]. apply Hagree; [left|exact Hr].
  - apply IH. intros p Hp. apply Hagree. right. exact Hp.
Qed.

(** X11. The converter is consulted for the published entries only, and
    only what it fulfils with counts: two converters that fulfil with the
    same content on the published entries of the collection give the same
    units, and the generator rejects with the one exactly when it rejects
    with the other. *)
Theorem getStaticPaths_converts_published_only {Content : Type}
    (render render' : CollectionEntry -> JS.Settled Content)
    (blog : list CollectionEntry) :
  (forall post content,
     post ∈ blog -> BlogPost.isPublished post = true ->
     (render post = JS.Fulfilled content
      <-> render' post = JS.Fulfilled content)) ->
  (forall units,
     BlogPost.getStaticPaths render blog = JS.Fulfilled units
     <-> BlogPost.getStaticPaths render' blog = JS.Fulfilled units) /\
  ((exists reason, BlogPost.getStaticPaths render blog = JS.Rejected reason)
   <-> (exists reason,
          BlogPost.getStaticPaths render' blog = JS.Rejected reason)).
Proof.
  intros Hagree.
  assert (forall units,
            BlogPost.getStaticPaths render blog = JS.Fulfilled units
            <-> BlogPost.getStaticPaths render' blog = JS.Fulfilled units)
    as Hsame.
  { intros units. unfold BlogPost.getStaticPaths. simpl.
    rewrite !Promise_all_Fulfilled, !buildParams_Fulfilled.
    split; apply Forall2_builtParam_agree; intros post Hin content Hr;
      apply list_elem_of_In, List.filter_In in Hin; destruct Hin as [Hin Hp];
      apply (Hagree post content); auto; apply list_elem_of_In, Hin. }
  split; [exact Hsame|].
  destruct (BlogPost.getStaticPaths render blog) as [us|r] eqn:E,
    (BlogPost.getStaticPaths render' blog) as [us'|r'] eqn:E'.
  - split; intros [reason H]; discriminate.
  - pose proof (proj1 (Hsame us) eq_refl). discriminate.
  - pose proof (proj2 (Hsame us') eq_refl). discriminate.
  - split; intros _; eauto.
Qed.

(** ** The further theorems at the sample content *)

Lemma schema_Success_iff_witness :
  ContentConfig.schema Sample.valid
  = Zod.Success
      (ContentConfig.mkPostData "T" (Some (JS.utc 2025 1 23)) "D" "A" ["x"]
         None)
  /\ Sample.valid !! "title" = Some (JS.VString "T").
Proof.
  split.
  - apply (proj2 (schema_Success_iff Sample.valid
                    (ContentConfig.mkPostData "T" (Some (JS.utc 2025 1 23))
                       "D" "A" ["x"] None))).
    repeat split; reflexivity.
  - apply (proj1 (schema_Success_iff Sample.valid
                    (ContentConfig.mkPostData "T" (Some (JS.utc 2025 1 23))
                       "D" "A" ["x"] None))).
    vm_compute. reflexivity.
Defined.

Lemma schema_ignores_other_keys_witness :
  ContentConfig.schema Fixtures.withDraftFlag
  = ContentConfig.schema Sample.valid /\
  ContentConfig.schema (delete "draft" Sample.valid)
  = ContentConfig.schema Sample.valid.
Proof.
  apply (schema_ignores_other_keys Sample.valid "draft" (JS.VBool true)).
  rewrite !not_elem_of_cons.
  repeat split; try discriminate. apply not_elem_of_nil.
Defined.

Lemma schema_Failure_names_keys_witness :
  [Zod.mkIssue [Zod.Key "author"] Zod.TString Zod.TUndefined] <> [] /\
  forall x,
    x ∈ [Zod.mkIssue [Zod.Key "author"] Zod.TString Zod.TUndefined] ->
    (exists name rest,
       name ∈ ["title"; "published"; "description"; "author"; "tags";
               "ogImage"] /\
       Zod.path x = Zod.Key name :: rest) /\
    Zod.expected x <> Zod.received x.
Proof.
  apply (schema_Failure_names_keys Sample.noAuthor).
  vm_compute. reflexivity.
Defined.

Lemma schema_rejects_mistyped_optional_witness :
  (exists issues,
     ContentConfig.schema Fixtures.publishedNull = Zod.Failure issues /\
     Zod.mkIssue [Zod.Key "published"] Zod.TDate Zod.TNull ∈ issues)
  /\
  (exists issues,
     ContentConfig.schema (<["ogImage" := JS.VNull]> Sample.valid)
     = Zod.Failure issues /\
     Zod.mkIssue [Zod.Key "ogImage"] Zod.TString Zod.TNull ∈ issues).
Proof.
  split.
  - apply (proj1 (schema_rejects_mistyped_optional Fixtures.publishedNull
                    JS.VNull ltac:(discriminate))).
    + reflexivity.
    + discriminate.
  - apply (proj2 (schema_rejects_mistyped_optional
                    (<["ogImage" := JS.VNull]> Sample.valid)
                    JS.VNull ltac:(discriminate))).
    + reflexivity.
    + discriminate.
Defined.

Lemma schema_rejects_tag_not_text_witness :
  exists issues,
    ContentConfig.schema Fixtures.numberTag = Zod.Failure issues /\
    Zod.mkIssue [Zod.Key "tags"; Zod.Index 1] Zod.TString Zod.TNumber
    ∈ issues.
Proof.
  apply (schema_rejects_tag_not_text Fixtures.numberTag
           [JS.VString "x"; JS.VNumber 3] 1 (JS.VNumber 3)).
  - reflexivity.
  - reflexivity.
  - discriminate.
Defined.

Lemma routedId_one_segment_witness : BlogPost.routedId "launch" = "launch".
Proof.
  apply (proj1 (proj2 (routedId_one_segment "launch"))).
  apply no_slash_of_split. reflexivity.
Defined.

Lemma listing_independent_of_collection_order_witness :
  BlogIndex.allPosts [Sample.jan2024; Sample.jun2025]
  = BlogIndex.allPosts [Sample.jun2025; Sample.jan2024] /\
  BlogIndex.listing [Sample.jan2024; Sample.jun2025]
  = BlogIndex.listing [Sample.jun2025; Sample.jan2024].
Proof.
  apply (listing_independent_of_collection_order
           [Sample.jan2024; Sample.jun2025] [Sample.jun2025; Sample.jan2024]).
  - apply Permutation_swap.
  - intros a b d Ha Hb Ea Eb.
    apply elem_of_cons in Ha. apply elem_of_cons in Hb.
    destruct Ha as [->|Ha], Hb as [->|Hb];
      try apply list_elem_of_singleton in Ha;
      try apply list_elem_of_singleton in Hb; subst;
      try reflexivity; vm_compute in Ea, Eb; congruence.
Defined.

Lemma getStaticPaths_Fulfilled_iff_witness :
  BlogPost.getStaticPaths Sample.renderBody [Sample.draft; Sample.postT]
  = JS.Fulfilled [BlogPost.builtParam Sample.postT "hello"].
Proof.
  apply (proj2 (getStaticPaths_Fulfilled_iff Sample.renderBody
                  [Sample.draft; Sample.postT]
                  [BlogPost.builtParam Sample.postT "hello"])).
  simpl. constructor; [|constructor].
  exists "hello". split; reflexivity.
Defined.

Lemma getStaticPaths_Rejected_iff_witness :
  exists reason,
    BlogPost.getStaticPaths Fixtures.renderButNested
      [Sample.postT; Sample.nested]
    = JS.Rejected reason.
Proof.
  apply (proj2 (getStaticPaths_Rejected_iff Fixtures.renderButNested
                  [Sample.postT; Sample.nested])).
  exists Sample.nested, "cannot convert".
  split; [right; left|]. split; reflexivity.
Defined.

Lemma getStaticPaths_converts_published_only_witness :
  (forall units,
     BlogPost.getStaticPaths Fixtures.renderPublished
       [Sample.draft; Sample.postT] = JS.Fulfilled units
     <-> BlogPost.getStaticPaths Sample.renderBody
           [Sample.draft; Sample.postT] = JS.Fulfilled units) /\
  ((exists reason,
      BlogPost.getStaticPaths Fixtures.renderPublished
        [Sample.draft; Sample.postT] = JS.Rejected reason)
   <-> (exists reason,
          BlogPost.getStaticPaths Sample.renderBody
            [Sample.draft; Sample.postT] = JS.Rejected reason)).
Proof.
  apply (getStaticPaths_converts_published_only Fixtures.renderPublished
           Sample.renderBody [Sample.draft; Sample.postT]).
  intros post content Hin Hp.
  apply elem_of_cons in Hin. destruct Hin as [->|Hin].
  - discriminate Hp.
  - apply list_elem_of_singleton in Hin. subst post. reflexivity.
Defined.

Lemma static_path_has_published_entry_witness :
  (exists post content d,
     post ∈ [Sample.draft; Sample.postT] /\
     ContentConfig.published (data post) = Some d /\
     Sample.renderBody post = JS.Fulfilled content /\
     BlogPost.builtParam Sample.postT "hello"
     = BlogPost.builtParam post content) /\
  (forall a b,
     BlogPost.params_id (BlogPost.builtParam Sample.postT "hello")
     <> a +:+ "/" +:+ b).
Proof.
  apply (static_path_has_published_entry Sample.renderBody
           [Sample.draft; Sample.postT]
           [BlogPost.builtParam Sample.postT "hello"]).
  - reflexivity.
  - left.
Defined.

Lemma flat_ids_give_distinct_routes_witness :
  NoDup
    (map BlogPost.params_id
       [BlogPost.builtParam Sample.postT "hello";
        BlogPost.builtParam Sample.withCustomOg "hello"]).
Proof.
  apply (flat_ids_give_distinct_routes Sample.renderBody
           [Sample.postT; Sample.draft; Sample.withCustomOg]).
  - apply (bool_decide_unpack _). vm_compute. exact I.
  - intros post Hin Hp.
    apply elem_of_cons in Hin. destruct Hin as [->|Hin];
      [apply no_slash_of_split; reflexivity|].
    apply elem_of_cons in Hin. destruct Hin as [->|Hin];
      [discriminate Hp|].
    apply list_elem_of_singleton in Hin. subst post.
    apply no_slash_of_split. reflexivity.
  - reflexivity.
Defined.

Lemma listing_links_the_static_paths_witness :
  BlogIndex.listing [Sample.jan2024; Sample.jun2025]
  ≡ₚ [BlogIndex.mkPostLink "/blog/first" "First";
      BlogIndex.mkPostLink "/blog/second" "Second"].
Proof.
  apply (listing_links_the_static_paths Sample.renderBody
           [Sample.jan2024; Sample.jun2025]
           [BlogPost.builtParam Sample.jan2024 "one";
            BlogPost.builtParam Sample.jun2025 "two"]).
  reflexivity.
Defined.

Lemma og_url_of_flat_entry_is_its_route_witness :
  exists content,
    Sample.renderBody Sample.postT = JS.Fulfilled content /\
    BlogPost.builtParam Sample.postT content
    ∈ [BlogPost.builtParam Sample.postT "hello";
       BlogPost.builtParam Sample.nested "hello"] /\
    let path := BlogPost.builtParam Sample.postT content in
    let doc := BlogPost.page "Astro" Sample.localeDate
                 (BlogPost.props path) in
    BlogPost.params_id path = "t" /\
    BlogPostLayout.metaProperty "og:url" (BlogPostLayout.head doc)
    = Some (Some ("https://www.nickcosmo.com" +:+ BlogPost.routePath path)).
Proof.
  apply (og_url_of_flat_entry_is_its_route Sample.renderBody "Astro"
           Sample.localeDate [Sample.postT; Sample.nested] _
           Sample.postT (JS.utc 2025 1 23)).
  - reflexivity.
  - left.
  - reflexivity.
  - apply no_slash_of_split. reflexivity.
Defined.

Lemma og_image_of_entry_witness :
  BlogPostLayout.metaProperty "og:image"
    (BlogPostLayout.head
       (BlogPost.page "Astro" Sample.localeDate
          (BlogPost.props (BlogPost.builtParam Fixtures.emptyOg "hello"))))
  = Some (Some "https://www.nickcosmo.com/og-image.png") /\
  BlogPostLayout.metaProperty "og:image"
    (BlogPostLayout.head
       (BlogPost.page "Astro" Sample.localeDate
          (BlogPost.props (BlogPost.builtParam Sample.withCustomOg "hello"))))
  = Some (Some ("https://www.nickcosmo.com/" +:+ "custom.png")).
Proof.
  split.
  - apply (proj1 (og_image_of_entry "Astro" Sample.localeDate
                    Fixtures.emptyOg "hello")).
    right. reflexivity.
  - apply (proj2 (og_image_of_entry "Astro" Sample.localeDate
                    Sample.withCustomOg "hello") "custom.png").
    + reflexivity.
    + discriminate.
    + apply (no_sep_of_split "&"). reflexivity.
Defined.

Lemma page_body_of_published_entry_witness :
  exists content,
    Sample.renderBody Sample.postT = JS.Fulfilled content /\
    BlogPost.builtParam Sample.postT content
    ∈ [BlogPost.builtParam Sample.postT "hello"] /\
    BlogPostLayout.bodyNodes
      (BlogPost.page "Astro" Sample.localeDate
         (BlogPost.props (BlogPost.builtParam Sample.postT content)))
    = [ BlogPostLayout.Header;
        BlogPostLayout.Divider;
        BlogPostLayout.Container
          [ BlogPostLayout.H1 "T";
            BlogPostLayout.Paragraph
              [BlogPostLayout.TimeElem
                 (Sample.localeDate (JS.utc 2025 1 23))];
            BlogPostLayout.Divider;
            BlogPostLayout.Slot content ];
        BlogPostLayout.Footer ].
Proof.
  apply (page_body_of_published_entry Sample.renderBody "Astro"
           Sample.localeDate [Sample.draft; Sample.postT] _
           Sample.postT (JS.utc 2025 1 23)).
  - reflexivity.
  - right. left.
  - reflexivity.
Defined.
